(** * extra-tablets: paginated catalogue scraper with batched persistence

    A shallow embedding of [src/extra/extra-tablets.py].  The script pages
    through a search API, maps every raw item to a flat record and inserts
    the records into a PostgreSQL table through a pooled connection.

    Python values decoded from JSON are modelled by [pyval]; the effects of
    the script (printing, sleeping, reading the clock, mutating the
    accumulators, the connection pool and the table) are threaded through a
    state-and-exception monad in which a raised exception keeps the state
    reached so far, as in Python.

    The network, the database and the clock are inputs of the model: a run
    is given the answers of the successive [session.get] calls, the
    database calls that raise, and the readings of the clock.  Printed lines
    are kept as the values they format; the request headers, the fixed part
    of the URL and the name of the table are left out. *)

From Stdlib Require Import ZArith Lia List Ascii String.
From stdpp Require Import base option list strings gmap.

Set Warnings "-register-all".
Local Open Scope string_scope.
Local Open Scope Z_scope.

(** ** Python values *)

(** A Python float: a finite binary fraction [m * 2^e], an infinity or NaN
    ([json] decodes the literals [Infinity] and [NaN] as well). *)
Inductive pyfloat : Type :=
| FFinite (m e : Z)
| FInf (negative : bool)
| FNaN.

(** What [response.json()] can return. *)
Inductive pyval : Type :=
| PNone
| PBool (b : bool)
| PInt (z : Z)
| PFloat (f : pyfloat)
| PStr (s : string)
| PList (l : list pyval)
| PDict (d : gmap string pyval).

(** The exception classes the script can meet; all derive from
    [Exception]. *)
Inductive exn : Type :=
| AttributeError
| IndexError
| KeyError
| TypeError
| RequestException
| JSONDecodeError
| OperationalError
| PoolError
| DatabaseError.

Inductive result (A : Type) : Type :=
| Ok (a : A)
| Raise (e : exn).
Arguments Ok {A} a.
Arguments Raise {A} e.

(** ** Strings *)

(** [str.upper()] on ASCII text: the letters a-z move to A-Z, every other
    character is kept. *)
Definition upper_char (c : ascii) : ascii :=
  let n := N_of_ascii c in
  if ((97 <=? n) && (n <=? 122))%N then ascii_of_N (n - 32) else c.

Fixpoint upper (s : string) : string :=
  match s with
  | EmptyString => EmptyString
  | String c s' => String (upper_char c) (upper s')
  end.

(** [s.split(',', 1)]: the text before the first comma and, when there is a
    comma, the text after it. *)
Fixpoint split_comma (s : string) : string * option string :=
  match s with
  | EmptyString => (EmptyString, None)
  | String c s' =>
      if Ascii.eqb c "," then (EmptyString, Some s')
      else let '(h, t) := split_comma s' in (String c h, t)
  end.

(** Truth value of a Python object in a condition. *)
Definition truthy (v : pyval) : bool :=
  match v with
  | PNone => false
  | PBool b => b
  | PInt z => negb (z =? 0)
  | PFloat (FFinite m _) => negb (m =? 0)
  | PFloat _ => true
  | PStr s => negb (String.eqb s "")
  | PList l => negb (Nat.eqb (length l) 0)
  | PDict d => negb (Nat.eqb (size d) 0)
  end.

(** ** The brand table *)

Definition brand_mapping : gmap string string :=
  list_to_map
    [ ("TECNO", "Tecno"); ("APPLE", "Apple"); ("NOKIA", "Nokia");
      ("XIAOMI", "Xiaomi"); ("VIVO", "Vivo"); ("MOTOROLA", "Motorola");
      ("HUAWEI", "Huawei"); ("NOTHING", "Nothing"); ("REALME", "Realme");
      ("HONOR", "Honor"); ("SAMSNG", "Samsung"); ("INFINIX", "Infinix") ].

(** [brand_mapping.get(brand.upper(), brand)] for a [str] argument. *)
Definition format_brand (brand : string) : string :=
  default brand (brand_mapping !! upper brand).

(** ** The capture timestamp *)

(** Gregorian date of a day number counted from 1970-01-01. *)
Definition civil_from_days (days : Z) : Z * Z * Z :=
  let z := days + 719468 in
  let era := z / 146097 in
  let doe := z - era * 146097 in
  let yoe := (doe - doe / 1460 + doe / 36524 - doe / 146096) / 365 in
  let doy := doe - (365 * yoe + yoe / 4 - yoe / 100) in
  let mp := (5 * doy + 2) / 153 in
  let d := doy - (153 * mp + 2) / 5 + 1 in
  let m := if mp <? 10 then mp + 3 else mp - 9 in
  let y := yoe + era * 400 + (if m <=? 2 then 1 else 0) in
  (y, m, d).

Definition digit (n : Z) : string :=
  String (ascii_of_N (48 + Z.to_N (n mod 10))) EmptyString.

Definition pad2 (n : Z) : string := digit (n / 10) +:+ digit n.
Definition pad4 (n : Z) : string := pad2 (n / 100) +:+ pad2 n.

(** [strftime('%Y-%m-%d %H:%M:%S')] of a time given in seconds since
    1970-01-01 00:00:00. *)
Definition strftime (t : Z) : string :=
  let '(y, m, d) := civil_from_days (t / 86400) in
  let s := t mod 86400 in
  pad4 y +:+ "-" +:+ pad2 m +:+ "-" +:+ pad2 d +:+ " " +:+
  pad2 (s / 3600) +:+ ":" +:+ pad2 (s mod 3600 / 60) +:+ ":" +:+ pad2 (s mod 60).

(** [utcnow() + timedelta(hours=3)] with minute, second and microsecond set
    to zero, formatted. *)
Definition current_time_str (utcnow : Z) : string :=
  let current_time := utcnow + 3 * 3600 in
  strftime (current_time - current_time mod 3600).

(** ** Records, rows and the state of a run *)

(** The dictionary returned by [extract_product_data]; its ten keys are
    fixed, the values copied from the raw item keep the type they had. *)
Record normalized_record : Type := {
  name : string;
  specs : pyval;
  new_price : pyval;
  old_price : pyval;
  brand : string;
  link : pyval;
  category : string;
  datetime : string;
  stock : pyval;
  store : string
}.

(** The parameter tuple built for one record, in the column order of the
    INSERT statement. *)
Definition row : Type := list pyval.

Definition row_of (product : normalized_record) : row :=
  [ PStr (name product); specs product; new_price product; old_price product;
    link product; PStr (brand product); PStr (category product);
    PStr (datetime product); stock product; PStr (store product) ].

(** What a run does that can be seen from outside, in order: the pages it
    asks for, the lines it prints and the pauses it takes.  A request is
    kept as the offset put after [&start=] in its URL, a printed line as the
    values its f-string formats. *)
Inductive event : Type :=
| Request (start : Z)
| PrintConnected
| PrintConnectError
| PrintProduct (product_name : string) (stock : pyval)
| PrintFailedStatus (start_index status_code : Z)
| PrintNoMore (start_index : Z)
| PrintFetchedAll (total_products : pyval)
| PrintError (start_index : Z) (e : exn)
| Sleep (seconds : Z)
| PrintSkipSave
| PrintSaved (n : nat)
| PrintSaveError (e : exn).

(** The pool: [maxconn] and the number of connections handed out. *)
Record pool : Type := { maxconn : nat; used : nat }.

Record state : Type := {
  start_index : Z;
  all_products : list normalized_record;
  all_responses : list pyval;
  trace : list event;
  clock_reads : nat;
  connection_pool : option pool;
  transaction : list row;
  table : list row
}.

Definition initial_state : state :=
  {| start_index := 0; all_products := []; all_responses := [];
     trace := []; clock_reads := 0; connection_pool := None;
     transaction := []; table := [] |}.

(** ** The monad: state that survives a raised exception *)

Definition M (A : Type) : Type := state → result A * state.

Definition ret {A} (a : A) : M A := λ s, (Ok a, s).

Definition raise {A} (e : exn) : M A := λ s, (Raise e, s).

Definition bind {A B} (m : M A) (k : A → M B) : M B :=
  λ s, match m s with
       | (Ok a, s') => k a s'
       | (Raise e, s') => (Raise e, s')
       end.

(** [try: body / except Exception as e: handler e]. *)
Definition try_except {A} (body : M A) (handler : exn → M A) : M A :=
  λ s, match body s with
       | (Ok a, s') => (Ok a, s')
       | (Raise e, s') => handler e s'
       end.

Definition lift {A} (r : result A) : M A := λ s, (r, s).

(** The monad is used through stdpp's [x ← m; k] and [m ;; k]. *)
#[global] Instance M_ret : MRet M := @ret.
#[global] Instance M_bind : MBind M := λ A B k m, bind m k.

Definition emit (e : event) : M unit :=
  λ s, (Ok tt,
        {| start_index := start_index s; all_products := all_products s;
           all_responses := all_responses s; trace := trace s ++ [e];
           clock_reads := clock_reads s; connection_pool := connection_pool s;
           transaction := transaction s; table := table s |}).

Definition print (e : event) : M unit := emit e.

Definition sleep (seconds : Z) : M unit := emit (Sleep seconds).

Definition append_product (r : normalized_record) : M unit :=
  λ s, (Ok tt,
        {| start_index := start_index s; all_products := all_products s ++ [r];
           all_responses := all_responses s; trace := trace s;
           clock_reads := clock_reads s; connection_pool := connection_pool s;
           transaction := transaction s; table := table s |}).

Definition append_response (j : pyval) : M unit :=
  λ s, (Ok tt,
        {| start_index := start_index s; all_products := all_products s;
           all_responses := all_responses s ++ [j]; trace := trace s;
           clock_reads := clock_reads s; connection_pool := connection_pool s;
           transaction := transaction s; table := table s |}).

Definition set_start_index (i : Z) : M unit :=
  λ s, (Ok tt,
        {| start_index := i; all_products := all_products s;
           all_responses := all_responses s; trace := trace s;
           clock_reads := clock_reads s; connection_pool := connection_pool s;
           transaction := transaction s; table := table s |}).

Definition set_connection_pool (p : option pool) : M unit :=
  λ s, (Ok tt,
        {| start_index := start_index s; all_products := all_products s;
           all_responses := all_responses s; trace := trace s;
           clock_reads := clock_reads s; connection_pool := p;
           transaction := transaction s; table := table s |}).

Definition set_transaction (t : list row) : M unit :=
  λ s, (Ok tt,
        {| start_index := start_index s; all_products := all_products s;
           all_responses := all_responses s; trace := trace s;
           clock_reads := clock_reads s; connection_pool := connection_pool s;
           transaction := t; table := table s |}).

Definition set_table (t : list row) : M unit :=
  λ s, (Ok tt,
        {| start_index := start_index s; all_products := all_products s;
           all_responses := all_responses s; trace := trace s;
           clock_reads := clock_reads s; connection_pool := connection_pool s;
           transaction := transaction s; table := t |}).

Definition get {A} (f : state → A) : M A := λ s, (Ok (f s), s).

Fixpoint for_each {A} (body : A → M unit) (l : list A) : M unit :=
  match l with
  | [] => ret tt
  | x :: l' => (body x : M unit) ;; for_each body l'
  end.

(** ** Operations on Python values *)

(** [v.get(key, default)]: only a dictionary has the method. *)
Definition py_get (v : pyval) (key : string) (dflt : pyval) : result pyval :=
  match v with
  | PDict d => Ok (default dflt (d !! key))
  | _ => Raise AttributeError
  end.

(** [v[0]]. The keys of a decoded JSON object are strings, so [0] is never
    a key of a dictionary. *)
Definition py_first (v : pyval) : result pyval :=
  match v with
  | PList (x :: _) => Ok x
  | PList [] => Raise IndexError
  | PStr (String c _) => Ok (PStr (String c EmptyString))
  | PStr EmptyString => Raise IndexError
  | PDict _ => Raise KeyError
  | _ => Raise TypeError
  end.

(** [v.split(',', 1)] and [v.upper()] exist on [str] only. *)
Definition py_split_comma (v : pyval) : result (string * option string) :=
  match v with
  | PStr s => Ok (split_comma s)
  | _ => Raise AttributeError
  end.

Definition py_format_brand (v : pyval) : result string :=
  match v with
  | PStr s => Ok (format_brand s)
  | _ => Raise AttributeError
  end.

Fixpoint chars (s : string) : list pyval :=
  match s with
  | EmptyString => []
  | String c s' => PStr (String c EmptyString) :: chars s'
  end.

(** The elements a [for] loop visits: the items of a list, the characters
    of a string, the keys of a dictionary. *)
Definition py_iter (v : pyval) : result (list pyval) :=
  match v with
  | PList l => Ok l
  | PStr s => Ok (chars s)
  | PDict d => Ok (PStr <$> (map_to_list d).*1)
  | _ => Raise TypeError
  end.

(** [n >= v] for an [int] [n]. *)
Definition py_int_ge (n : Z) (v : pyval) : result bool :=
  match v with
  | PInt z => Ok (z <=? n)
  | PBool b => Ok (Z.b2z b <=? n)
  | PFloat (FFinite m e) =>
      Ok (if 0 <=? e then m * 2 ^ e <=? n else m <=? n * 2 ^ (- e))
  | PFloat (FInf negative) => Ok negative
  | PFloat FNaN => Ok false
  | _ => Raise TypeError
  end.

(** ** The world outside the script *)

(** What one [session.get(url)] brings back: an exception of the transport,
    or a response with its status code and the outcome of [response.json()]
    (the decoded body, or the decoder's exception). *)
Inductive http_outcome : Type :=
| GetRaises (e : exn)
| GetResponse (status_code : Z) (json : result pyval).

(** The calls made on the pool, the connection and the cursor; a
    [db_behaviour] tells which of them raise, and what. *)
Inductive db_call : Type :=
| Getconn
| Cursor
| ExecuteBatch
| Commit
| Putconn.

#[global] Instance db_call_eq_dec : EqDecision db_call.
Proof. solve_decision. Defined.

Definition db_behaviour : Type := db_call → option exn.

(** How [SimpleConnectionPool(...)] ends at start-up. *)
Inductive connect_outcome : Type :=
| Connected
| ConnectFails (e : exn).

Inductive control : Type :=
| Break
| Continue.

(** Whether [fetch_products] has returned, or is still in its loop when the
    recorded answers of the network are used up. *)
Inductive progress : Type :=
| Returned
| Fetching.

Section Script.

(** [str(v)] for a value that is not a [str]; the text Python prints for
    numbers and containers is left open. *)
Variable str_of : pyval → string.

(** The reading of [datetime.utcnow()] at its n-th call, in seconds since
    1970-01-01 00:00:00 UTC. *)
Variable clock : nat → Z.

(** How [{v}] is rendered inside an f-string. *)
Definition py_str (v : pyval) : string :=
  match v with
  | PStr s => s
  | _ => str_of v
  end.

Definition utcnow : M Z :=
  λ s, (Ok (clock (clock_reads s)),
        {| start_index := start_index s; all_products := all_products s;
           all_responses := all_responses s; trace := trace s;
           clock_reads := S (clock_reads s);
           connection_pool := connection_pool s;
           transaction := transaction s; table := table s |}).

(** ** [extract_product_data] *)

Definition extract_product_data (product : pyval) : M normalized_record :=
  now ← utcnow;
  let current_time_str := current_time_str now in
  product_name ← lift (py_get product "nameEn" (PStr "No Name Available"));
  product_parts ← lift (py_split_comma product_name);
  let name := product_parts.1 in
  let additional_name := default "" product_parts.2 in
  processor_core ←
    lift (py_get product "featureEnProcessorCore"
            (PStr "No Processor Info Available"));
  let specs :=
    if String.eqb additional_name "" then processor_core
    else PStr (additional_name +:+ ", " +:+ py_str processor_core) in
  product_link ← lift (py_get product "productUrl" (PStr "No URL Available"));
  new_price ← lift (py_get product "sellingPrice" PNone);
  old_price ← lift (py_get product "wasPrice" new_price);
  in_stock_flag ← lift (py_get product "inStockFlag" (PBool false));
  let stock := in_stock_flag in
  print (PrintProduct (py_str product_name) stock);;
  brands ← lift (py_get product "brand" (PList [PStr "No Brand Available"]));
  raw_brand ← lift (py_first brands);
  brand ← lift (py_format_brand raw_brand);
  mret {| name := name; specs := specs; new_price := new_price;
          old_price := old_price; brand := brand; link := product_link;
          category := "tablets"; datetime := current_time_str;
          stock := stock; store := "extra" |}.

(** ** [save_to_postgresql] *)

Definition db_do (db : db_behaviour) (c : db_call) (effect : M unit) : M unit :=
  match db c with
  | Some e => raise e
  | None => effect
  end.

(** [connection_pool.getconn()]: a pool with every connection handed out
    raises [PoolError]. *)
Definition getconn (db : db_behaviour) : M unit :=
  db_do db Getconn
    (cp ← get connection_pool;
     match cp with
     | None => raise AttributeError
     | Some p =>
         if (used p <? maxconn p)%nat
         then set_connection_pool
                (Some {| maxconn := maxconn p; used := S (used p) |})
         else raise PoolError
     end).

(** [connection_pool.putconn(conn)]. *)
Definition putconn (db : db_behaviour) : M unit :=
  db_do db Putconn
    (cp ← get connection_pool;
     match cp with
     | None => raise AttributeError
     | Some p =>
         set_connection_pool
           (Some {| maxconn := maxconn p; used := Nat.pred (used p) |})
     end).

Definition cursor (db : db_behaviour) : M unit := db_do db Cursor (mret tt).

(** [execute_batch(cursor, insert_query, product_data)]: the rows join the
    open transaction of the connection. *)
Definition execute_batch (db : db_behaviour) (product_data : list row) : M unit :=
  db_do db ExecuteBatch
    (t ← get transaction; set_transaction (t ++ product_data)).

(** [conn.commit()]: the rows of the transaction reach the table. *)
Definition commit (db : db_behaviour) : M unit :=
  db_do db Commit
    (t ← get transaction; rows ← get table;
     set_table (rows ++ t);; set_transaction []).

Definition save_to_postgresql (db : db_behaviour)
    (products : list normalized_record) : M unit :=
  cp ← get connection_pool;
  match cp with
  | None => print PrintSkipSave
  | Some _ =>
      try_except
        (getconn db;;
         cursor db;;
         let product_data := row_of <$> products in
         execute_batch db product_data;;
         commit db;;
         putconn db;;
         print (PrintSaved (length products)))
        (λ e, print (PrintSaveError e))
  end.

(** ** [fetch_products] *)

(** [session.get(url)] with [url = f"{API_URL}&start={start_index}"],
    answered by [o]. *)
Definition session_get (o : http_outcome) : M (Z * result pyval) :=
  i ← get start_index;
  emit (Request i);;
  match o with
  | GetRaises e => raise e
  | GetResponse status_code json => mret (status_code, json)
  end.

(** The [try] block of one turn of [while True]. *)
Definition page_try (o : http_outcome) : M control :=
  response ← session_get o;
  let '(status_code, json) := response in
  if negb (status_code =? 200) then
    i ← get start_index;
    print (PrintFailedStatus i status_code);;
    mret Break
  else
    j ← lift json;
    append_response j;;
    data ← lift json;
    response ← lift (py_get data "response" (PDict ∅));
    products ← lift (py_get response "products" (PList []));
    response' ← lift (py_get data "response" (PDict ∅));
    total_products ← lift (py_get response' "numberOfProducts" (PInt 0));
    if negb (truthy products) then
      i ← get start_index;
      print (PrintNoMore i);;
      mret Break
    else
      items ← lift (py_iter products);
      for_each
        (λ product_data,
           r ← extract_product_data product_data; append_product r)
        items;;
      n ← get (λ s, length (all_products s));
      reached ← lift (py_int_ge (Z.of_nat n) total_products);
      if reached : bool then
        print (PrintFetchedAll total_products);;
        mret Break
      else
        i ← get start_index;
        set_start_index (i + 96);;
        mret Continue.

(** The [except Exception as e] clause. *)
Definition page_except (e : exn) : M control :=
  i ← get start_index;
  print (PrintError i e);;
  sleep 5;;
  mret Continue.

(** One turn of the loop on the answer [o] of the network. *)
Definition fetch_page (o : http_outcome) : M control :=
  try_except (page_try o) page_except.

(** The loop, one turn per recorded answer of the network.  [Some rest]:
    the loop has left through a [break], with the answers [rest] never
    asked for; [None]: the answers are used up and the loop is still
    running. *)
Fixpoint fetch_loop (network : list http_outcome)
    : M (option (list http_outcome)) :=
  match network with
  | [] => mret None
  | o :: rest =>
      c ← fetch_page o;
      match c with
      | Break => mret (Some rest)
      | Continue => fetch_loop rest
      end
  end.

(** [start_index = 0], [all_products = []], [all_responses = []]. *)
Definition fresh_locals (s : state) : state :=
  {| start_index := 0; all_products := []; all_responses := [];
     trace := trace s; clock_reads := clock_reads s;
     connection_pool := connection_pool s;
     transaction := transaction s; table := table s |}.

Definition fetch_products (network : list http_outcome) (db : db_behaviour)
    : M progress :=
  (λ s, (Ok tt, fresh_locals s)) ;;
  left ← fetch_loop network;
  match left with
  | None => mret Fetching
  | Some _ =>
      cp ← get connection_pool;
      match cp with
      | Some _ =>
          products ← get all_products;
          save_to_postgresql db products;;
          mret Returned
      | None => mret Returned
      end
  end.

(** ** The script: pool creation, then [fetch_products()] *)

Definition create_pool (c : connect_outcome) : M unit :=
  set_connection_pool None;;
  try_except
    (match c with
     | Connected =>
         set_connection_pool (Some {| maxconn := 100; used := 0 |});;
         print PrintConnected
     | ConnectFails e => raise e
     end)
    (λ e,
       match e with
       | OperationalError => print PrintConnectError
       | _ => raise e
       end).

Definition script (c : connect_outcome) (network : list http_outcome)
    (db : db_behaviour) : M progress :=
  create_pool c;;
  fetch_products network db.

(** ** Well-formed items *)

(** Two fields of a raw item are used as values of a given type: the title
    is split as a [str], and the first element of the brand is upper-cased
    as a [str].  [title_of] and [brand_of] read them, with the defaults of
    the code; [item_ok] says that both have the type the code relies on. *)
Definition title_of (d : gmap string pyval) : option string :=
  match default (PStr "No Name Available") (d !! "nameEn") with
  | PStr t => Some t
  | _ => None
  end.

Definition brand_of (d : gmap string pyval) : option string :=
  match py_first (default (PList [PStr "No Brand Available"]) (d !! "brand")) with
  | Ok (PStr b) => Some b
  | _ => None
  end.

Definition item_ok (d : gmap string pyval) : bool :=
  bool_decide (is_Some (title_of d)) && bool_decide (is_Some (brand_of d)).

(** The record built from a well-formed item when the clock reads [now]. *)
Definition record_of (now : Z) (d : gmap string pyval) : normalized_record :=
  let t := default "" (title_of d) in
  let additional_name := default "" (split_comma t).2 in
  let processor_core :=
    default (PStr "No Processor Info Available")
      (d !! "featureEnProcessorCore") in
  let selling := default PNone (d !! "sellingPrice") in
  {| name := (split_comma t).1;
     specs := if String.eqb additional_name "" then processor_core
              else PStr (additional_name +:+ ", " +:+ py_str processor_core);
     new_price := selling;
     old_price := default selling (d !! "wasPrice");
     brand := format_brand (default "" (brand_of d));
     link := default (PStr "No URL Available") (d !! "productUrl");
     category := "tablets";
     datetime := current_time_str now;
     stock := default (PBool false) (d !! "inStockFlag");
     store := "extra" |}.

(** The records a pass over well-formed items appends, the first clock
    reading being the [n]-th. *)
Fixpoint records_of (n : nat) (ds : list (gmap string pyval))
    : list normalized_record :=
  match ds with
  | [] => []
  | d :: ds' => record_of (clock n) d :: records_of (S n) ds'
  end.

(** The state [s] with the events [evs] added to its trace. *)
Definition add_events (s : state) (evs : list event) : state :=
  {| start_index := start_index s; all_products := all_products s;
     all_responses := all_responses s; trace := trace s ++ evs;
     clock_reads := clock_reads s; connection_pool := connection_pool s;
     transaction := transaction s; table := table s |}.

(** The state [s] once a request at the current offset has been answered
    by a 200 response whose body decodes to [data]. *)
Definition answered (s : state) (data : pyval) : state :=
  {| start_index := start_index s; all_products := all_products s;
     all_responses := all_responses s ++ [data];
     trace := trace s ++ [Request (start_index s)];
     clock_reads := clock_reads s; connection_pool := connection_pool s;
     transaction := transaction s; table := table s |}.

(** What a failed turn at offset [i] adds to the trace. *)
Definition retry_events (i : Z) (e : exn) : list event :=
  [Request i; PrintError i e; Sleep 5].

(** The state [s] with [connection_pool] set to [p]. *)
Definition with_pool (p : option pool) (s : state) : state :=
  {| start_index := start_index s; all_products := all_products s;
     all_responses := all_responses s; trace := trace s;
     clock_reads := clock_reads s; connection_pool := p;
     transaction := transaction s; table := table s |}.

(** The lines a pass over well-formed items prints. *)
Definition product_line (d : gmap string pyval) : event :=
  PrintProduct (default "" (title_of d))
    (default (PBool false) (d !! "inStockFlag")).

(** The state after a pass of the [for] loop over the well-formed items
    [ds]: a record appended, a line printed and the clock read once for
    each. *)
Definition after_items (s : state) (ds : list (gmap string pyval)) : state :=
  {| start_index := start_index s;
     all_products := all_products s ++ records_of (clock_reads s) ds;
     all_responses := all_responses s;
     trace := trace s ++ (product_line <$> ds);
     clock_reads := (clock_reads s + length ds)%nat;
     connection_pool := connection_pool s;
     transaction := transaction s; table := table s |}.

(** The part of the state the database calls work on. *)
Definition db_fields (s : state) : option pool * list row * list row :=
  (connection_pool s, transaction s, table s).

(** A computation that neither reads nor writes [connection_pool]: run
    with another pool, it does the same and leaves that pool in place. *)
Definition pool_blind {A} (m : M A) : Prop :=
  ∀ p s, m (with_pool p s) = let '(r, s') := m s in (r, with_pool p s').

(** A computation that leaves the projection [f] of the state as it was,
    whether it returns or raises. *)
Definition preserves {X A} (f : state → X) (m : M A) : Prop :=
  ∀ s, f (m s).2 = f s.

(** ** Sample data *)

Definition tab_x : gmap string pyval :=
  list_to_map [ ("nameEn", PStr "Tab X, 8GB RAM");
                ("featureEnProcessorCore", PStr "Octa-core") ].

Definition tab_a : gmap string pyval :=
  list_to_map [ ("nameEn", PStr "Tab A"); ("brand", PList [PStr "SAMSNG"]);
                ("productUrl", PStr "/tab-a"); ("sellingPrice", PInt 499) ].

Definition tab_b : gmap string pyval :=
  list_to_map [ ("nameEn", PStr "Tab B"); ("brand", PList [PStr "tecno"]);
                ("productUrl", PStr "/tab-b"); ("sellingPrice", PInt 299) ].

(** An item whose brand list is empty: [product.get('brand', ...)[0]]
    raises [IndexError]. *)
Definition tab_b_no_brand : gmap string pyval :=
  <["brand" := PList []]> tab_b.

(** A decoded body [{"response": {"products": ..., "numberOfProducts": ...}}]. *)
Definition response_object (products : list pyval) (total : Z) : pyval :=
  PDict (list_to_map [ ("products", PList products);
                       ("numberOfProducts", PInt total) ]).

Definition body (products : list pyval) (total : Z) : pyval :=
  PDict {[ "response" := response_object products total ]}.

Definition page (products : list pyval) (total : Z) : http_outcome :=
  GetResponse 200 (Ok (body products total)).

(** A rendering of non-[str] values and a clock for the sample runs. *)
Definition sample_str (v : pyval) : string :=
  match v with
  | PNone => "None"
  | PBool true => "True"
  | PBool false => "False"
  | _ => "?"
  end.

Definition sample_clock (n : nat) : Z := 1700000000 + Z.of_nat n.

Definition no_fault : db_behaviour := λ _, None.

(** The database on which the call [c] raises [e], and no other call
    raises. *)
Definition fails_at (c : db_call) (e : exn) : db_behaviour :=
  λ c', if decide (c' = c) then Some e else None.

(** The number of turns the loop has made when it leaves [network] with
    [rest] not asked for. *)
Definition turns (network rest : list http_outcome) : nat :=
  (length network - length rest)%nat.

(** The offsets requested in a trace. *)
Definition requests (t : list event) : list Z :=
  omap (λ e, match e with Request i => Some i | _ => None end) t.

(** The offsets [offs] follow the paging from offset [i]: the first is [i],
    and each next one is the one before or the one before plus 96. *)
Fixpoint paged_from (i : Z) (offs : list Z) : bool :=
  match offs with
  | [] => true
  | x :: l => (x =? i) && (paged_from i l || paged_from (i + 96) l)
  end.

(** The lines printed when the loop is left. *)
Definition stop_event (e : event) : bool :=
  match e with
  | PrintFailedStatus _ _ | PrintNoMore _ | PrintFetchedAll _ => true
  | _ => false
  end.

(** What every record built by the extraction satisfies. *)
Definition normalized (r : normalized_record) : Prop :=
  category r = "tablets"
  ∧ store r = "extra"
  ∧ (","%char ∉ list_ascii_of_string (name r))
  ∧ format_brand (brand r) = brand r.

(** A computation that only adds records to the accumulator, all of them
    normalized, whether it returns or raises. *)
Definition appends_normalized {A} (m : M A) : Prop :=
  ∀ s, ∃ l,
    all_products (m s).2 = (all_products s ++ l)%list ∧ Forall normalized l.

(** * Properties *)

(** ** The brand table *)

Lemma brand_mapping_values (k v : string) :
  brand_mapping !! k = Some v → format_brand v = v.
Proof.
  intros H. apply elem_of_list_to_map_2 in H.
  repeat (apply elem_of_cons in H as [H|H];
          [injection H as -> ->; vm_compute; reflexivity|]).
  by apply elem_of_nil in H.
Qed.

Lemma format_brand_idempotent (b : string) :
  format_brand (format_brand b) = format_brand b.
Proof.
  unfold format_brand at 2 3.
  destruct (brand_mapping !! upper b) as [v|] eqn:E; simpl.
  - by eapply brand_mapping_values.
  - unfold format_brand. by rewrite E.
Qed.

(** C4. Brand correction looks its argument up by its upper-cased form, so
    "tecno", "TECNO" and "Tecno" all give "Tecno", and two inputs that
    differ by case only and hit the table give the same brand; and it is
    idempotent on every string. *)
Theorem format_brand_case_insensitive_idempotent :
  (format_brand "tecno" = "Tecno" ∧ format_brand "TECNO" = "Tecno"
   ∧ format_brand "Tecno" = "Tecno")
  ∧ (∀ a b : string,
       upper a = upper b → is_Some (brand_mapping !! upper a) →
       format_brand a = format_brand b)
  ∧ (∀ b : string, format_brand (format_brand b) = format_brand b).
Proof.
  split; [|split].
  - by vm_compute.
  - intros a b Hab [v Hv]. unfold format_brand.
    rewrite <- Hab, Hv. reflexivity.
  - apply format_brand_idempotent.
Qed.

(** ** Extraction *)

Ltac run :=
  unfold mbind, M_bind, bind, mret, M_ret, ret, lift, get, raise, print,
    sleep, emit; cbn.

Lemma split_comma_no_comma (t : string) :
  ","%char ∉ list_ascii_of_string t → split_comma t = (t, None).
Proof.
  induction t as [|c t IH]; simpl; [done|].
  intros H. apply not_elem_of_cons in H as [Hc Ht].
  destruct (Ascii.eqb_spec c ","); [congruence|].
  by rewrite (IH Ht).
Qed.

Lemma item_ok_fields (d : gmap string pyval) :
  item_ok d = true →
  ∃ t b, default (PStr "No Name Available") (d !! "nameEn") = PStr t
         ∧ py_first (default (PList [PStr "No Brand Available"]) (d !! "brand"))
           = Ok (PStr b)
         ∧ title_of d = Some t ∧ brand_of d = Some b.
Proof.
  unfold item_ok, title_of, brand_of. intros H.
  apply andb_prop in H as [H1 H2].
  apply bool_decide_eq_true in H1 as [t Ht], H2 as [b Hb].
  destruct (default _ (d !! "nameEn")); try discriminate.
  destruct (py_first _) as [[]|]; try discriminate.
  eauto 10.
Qed.

(** What the call does on a well-formed item: one clock reading, one
    printed line, and the record. *)
Lemma extract_product_data_ok (d : gmap string pyval) (s : state) :
  item_ok d = true →
  extract_product_data (PDict d) s =
    (Ok (record_of (clock (clock_reads s)) d),
     {| start_index := start_index s; all_products := all_products s;
        all_responses := all_responses s;
        trace := trace s ++ [product_line d];
        clock_reads := S (clock_reads s);
        connection_pool := connection_pool s;
        transaction := transaction s; table := table s |}).
Proof.
  intros H. destruct (item_ok_fields d H) as (t & b & Ht & Hb & Ht' & Hb').
  unfold extract_product_data, utcnow, record_of, product_line. run.
  rewrite Ht', Hb', Ht. cbn. rewrite Hb. cbn. reflexivity.
Qed.

Lemma item_ok_intro (d : gmap string pyval) :
  is_Some (title_of d) → is_Some (brand_of d) → item_ok d = true.
Proof.
  intros Ht Hb. unfold item_ok.
  apply andb_true_intro. split; by apply bool_decide_eq_true.
Qed.

Lemma title_of_present (d : gmap string pyval) (t : string) :
  d !! "nameEn" = Some (PStr t) → title_of d = Some t.
Proof. intros H. unfold title_of. by rewrite H. Qed.

Lemma title_of_missing (d : gmap string pyval) :
  d !! "nameEn" = None → title_of d = Some "No Name Available".
Proof. intros H. unfold title_of. by rewrite H. Qed.

Lemma brand_of_missing (d : gmap string pyval) :
  d !! "brand" = None → brand_of d = Some "No Brand Available".
Proof. intros H. unfold brand_of. by rewrite H. Qed.

(** C3, as the code has it. For a raw item whose title is "Tab X, 8GB RAM"
    and whose processor-core attribute is "Octa-core" (its brand missing or
    well-formed), extraction yields name "Tab X" and specs
    " 8GB RAM, Octa-core": the text after the first comma is kept as it is,
    with its leading space.  For every title without a comma, the name is
    the whole title and specs is the processor-core value alone (its
    default when the attribute is missing). *)
Theorem extract_name_specs_split (d : gmap string pyval) (s : state) :
  is_Some (brand_of d) →
  (d !! "nameEn" = Some (PStr "Tab X, 8GB RAM") →
   d !! "featureEnProcessorCore" = Some (PStr "Octa-core") →
   ∃ r s', extract_product_data (PDict d) s = (Ok r, s')
           ∧ name r = "Tab X" ∧ specs r = PStr " 8GB RAM, Octa-core")
  ∧ (∀ t : string,
       d !! "nameEn" = Some (PStr t) →
       ","%char ∉ list_ascii_of_string t →
       ∃ r s', extract_product_data (PDict d) s = (Ok r, s')
               ∧ name r = t
               ∧ specs r = default (PStr "No Processor Info Available")
                             (d !! "featureEnProcessorCore")).
Proof.
  intros Hb. split.
  - intros Hn Hc. eexists _, _. split.
    + apply extract_product_data_ok, item_ok_intro; [|done].
      rewrite (title_of_present _ _ Hn). by eexists.
    + unfold record_of. rewrite (title_of_present _ _ Hn), Hc. by cbn.
  - intros t Hn Hcomma. eexists _, _. split.
    + apply extract_product_data_ok, item_ok_intro; [|done].
      rewrite (title_of_present _ _ Hn). by eexists.
    + unfold record_of. rewrite (title_of_present _ _ Hn). cbn.
      by rewrite (split_comma_no_comma t Hcomma).
Qed.

(** C5. Extraction of a raw item does not fail because a field is missing:
    when the title is missing or a string, and the brand is missing or has a
    string as its first element, the call returns a record, whatever the
    other fields are.  In that record every missing field has its default:
    the placeholder name, the placeholder processor text, None for the
    price, new_price for old_price, the placeholder brand (which the brand
    table leaves unchanged), "No URL Available", False for the stock flag;
    category, store and the timestamp are always set. *)
Theorem extract_product_data_defaults (d : gmap string pyval) (s : state) :
  (d !! "nameEn" = None ∨ ∃ t, d !! "nameEn" = Some (PStr t)) →
  (d !! "brand" = None
   ∨ ∃ v b, d !! "brand" = Some v ∧ py_first v = Ok (PStr b)) →
  ∃ r s',
    extract_product_data (PDict d) s = (Ok r, s')
    ∧ (d !! "nameEn" = None →
       name r = "No Name Available"
       ∧ specs r = default (PStr "No Processor Info Available")
                     (d !! "featureEnProcessorCore"))
    ∧ (d !! "featureEnProcessorCore" = None →
       d !! "nameEn" = None →
       specs r = PStr "No Processor Info Available")
    ∧ (d !! "sellingPrice" = None → new_price r = PNone)
    ∧ (d !! "wasPrice" = None → old_price r = new_price r)
    ∧ (d !! "brand" = None →
       brand r = "No Brand Available"
       ∧ format_brand "No Brand Available" = "No Brand Available")
    ∧ (d !! "productUrl" = None → link r = PStr "No URL Available")
    ∧ (d !! "inStockFlag" = None → stock r = PBool false)
    ∧ category r = "tablets"
    ∧ store r = "extra"
    ∧ datetime r = current_time_str (clock (clock_reads s)).
Proof.
  intros Hn Hb.
  assert (Hok : item_ok d = true).
  { apply item_ok_intro.
    - destruct Hn as [Hn|[t Hn]].
      + rewrite (title_of_missing _ Hn). by eexists.
      + rewrite (title_of_present _ _ Hn). by eexists.
    - destruct Hb as [Hb|(v & b & Hv & Hf)].
      + rewrite (brand_of_missing _ Hb). by eexists.
      + unfold brand_of. rewrite Hv. cbn. rewrite Hf. by eexists. }
  eexists _, _. split; [by apply extract_product_data_ok|].
  unfold record_of. cbn.
  split_and!; try done.
  - intros H. by rewrite (title_of_missing _ H).
  - intros Hc H. by rewrite (title_of_missing _ H), Hc.
  - by intros ->.
  - by intros ->.
  - intros H. by rewrite (brand_of_missing _ H).
  - by intros ->.
  - by intros ->.
Qed.

(** ** What a computation leaves untouched *)

Lemma preserves_ret {X A} (f : state → X) (a : A) : preserves f (mret a).
Proof. by intros s. Qed.

Lemma preserves_lift {X A} (f : state → X) (r : result A) :
  preserves f (lift r).
Proof. by intros s. Qed.

Lemma preserves_get {X A} (f : state → X) (g : state → A) :
  preserves f (get g).
Proof. by intros s. Qed.

Lemma preserves_bind {X A B} (f : state → X) (m : M A) (k : A → M B) :
  preserves f m → (∀ a, preserves f (k a)) → preserves f (m ≫= k).
Proof.
  intros Hm Hk s. unfold mbind, M_bind, bind.
  specialize (Hm s). destruct (m s) as [[a|e] s1]; cbn in *.
  - by rewrite Hk.
  - done.
Qed.

Lemma preserves_for_each {X A} (f : state → X) (body : A → M unit) l :
  (∀ a, preserves f (body a)) → preserves f (for_each body l).
Proof.
  intros Hb. induction l as [|a l IH]; [by intros s|].
  cbn. apply preserves_bind; auto.
Qed.

Lemma preserves_extract {X} (f : state → X) (v : pyval) :
  (∀ s e, f (add_events s [e]) = f s) →
  (∀ s, f (utcnow s).2 = f s) →
  preserves f (extract_product_data v).
Proof.
  intros He Hu. unfold extract_product_data.
  repeat first
    [ apply preserves_bind; [|intros ?]
    | apply preserves_lift
    | apply preserves_ret
    | exact Hu
    | (intros s; apply He) ].
Qed.

Lemma preserves_append {X} (f : state → X) (v : pyval) :
  (∀ s e, f (add_events s [e]) = f s) →
  (∀ s, f (utcnow s).2 = f s) →
  (∀ s r, f (append_product r s).2 = f s) →
  preserves f (r ← extract_product_data v; append_product r).
Proof.
  intros He Hu Ha. apply preserves_bind.
  - by apply preserves_extract.
  - intros r s. apply Ha.
Qed.

(** The [for] loop over a page changes neither the offset nor anything the
    database calls work on, however it ends. *)
Lemma for_each_extract_start_index (items : list pyval) :
  preserves start_index
    (for_each (λ product_data,
                 r ← extract_product_data product_data; append_product r)
       items).
Proof. apply preserves_for_each. intros v. by apply preserves_append. Qed.

Lemma for_each_extract_db_fields (items : list pyval) :
  preserves db_fields
    (for_each (λ product_data,
                 r ← extract_product_data product_data; append_product r)
       items).
Proof. apply preserves_for_each. intros v. by apply preserves_append. Qed.

(** The [for] loop over well-formed items. *)
Lemma for_each_extract_ok (ds : list (gmap string pyval)) (s : state) :
  Forall (λ d, item_ok d = true) ds →
  for_each (λ product_data,
              r ← extract_product_data product_data; append_product r)
    (PDict <$> ds) s
  = (Ok tt, after_items s ds).
Proof.
  intros H. revert s. induction H as [|d ds Hd _ IH]; intros s.
  - cbn. unfold after_items. destruct s; cbn.
    by rewrite !app_nil_r, Nat.add_0_r.
  - cbn. unfold mbind, M_bind, bind at 1.
    unfold bind at 1. rewrite (extract_product_data_ok d s Hd).
    unfold append_product at 1. cbn. rewrite IH.
    unfold after_items. cbn. f_equal. f_equal.
    + by rewrite <- app_assoc.
    + by rewrite <- app_assoc.
    + lia.
Qed.

Lemma for_each_app {A} (body : A → M unit) (l1 l2 : list A) (s : state) :
  for_each body (l1 ++ l2) s
  = match for_each body l1 s with
    | (Ok _, s1) => for_each body l2 s1
    | (Raise e, s1) => (Raise e, s1)
    end.
Proof.
  revert s. induction l1 as [|a l1 IH]; intros s; [done|].
  cbn. unfold mbind, M_bind, bind.
  destruct (body a s) as [[[]|e] s1]; [apply IH|done].
Qed.

(** ** Persistence *)

(** The [except] clause of [save_to_postgresql] catches whatever the
    database calls raise. *)
Lemma save_to_postgresql_never_raises (db : db_behaviour)
    (products : list normalized_record) (s : state) :
  ∃ s', save_to_postgresql db products s = (Ok tt, s').
Proof.
  unfold save_to_postgresql. unfold mbind, M_bind, bind at 1, get at 1.
  destruct (connection_pool s) as [p|]; [|by eexists].
  unfold try_except.
  match goal with |- context [match ?m s with _ => _ end] =>
    destruct (m s) as [[[]|e] s1] end; by eexists.
Qed.

(** ** One turn of the loop *)

Lemma preserves_raise {X A} (f : state → X) (e : exn) :
  preserves f (raise e : M A).
Proof. by intros s. Qed.

Lemma preserves_try_except {X A} (f : state → X) (m : M A) (h : exn → M A) :
  preserves f m → (∀ e, preserves f (h e)) → preserves f (try_except m h).
Proof.
  intros Hm Hh s. unfold try_except.
  specialize (Hm s). destruct (m s) as [[a|e] s1]; cbn in *; [done|].
  by rewrite Hh.
Qed.

Ltac preserves_step :=
  first
    [ apply preserves_bind; [|intros ?]
    | apply preserves_try_except; [|intros ?]
    | apply preserves_lift
    | apply preserves_ret
    | apply preserves_get
    | apply preserves_raise
    | apply for_each_extract_db_fields
    | (by intros ?)
    | match goal with
      | |- preserves _ (match ?x with _ => _ end) => destruct x
      end ].

(** A turn of the loop makes no database call. *)
Lemma fetch_page_db_fields (o : http_outcome) :
  preserves db_fields (fetch_page o).
Proof.
  unfold fetch_page, page_try, page_except, session_get, print, sleep.
  repeat preserves_step.
Qed.

Lemma page_except_run (e : exn) (s : state) :
  page_except e s
  = (Ok Continue, add_events s [PrintError (start_index s) e; Sleep 5]).
Proof.
  unfold page_except, add_events. run. by rewrite <- app_assoc.
Qed.

(** The [except] clause catches whatever the [try] block raises. *)
Lemma fetch_page_never_raises (o : http_outcome) (s : state) :
  ∃ c, (fetch_page o s).1 = Ok c.
Proof.
  unfold fetch_page, try_except.
  destruct (page_try o s) as [[c|e] s1]; [by exists c|].
  rewrite page_except_run. by exists Continue.
Qed.

(** The [try] block moves the offset in one case only: at its very end,
    when it goes on to the next page. *)
Lemma page_try_start_index (o : http_outcome) (s : state) :
  match page_try o s with
  | (Ok Continue, s') => start_index s' = start_index s + 96
  | (_, s') => start_index s' = start_index s
  end.
Proof.
  unfold page_try, session_get. run.
  destruct o as [e|status json]; cbn; [done|].
  destruct (status =? 200); cbn; [|done].
  destruct json as [data|e]; cbn; [|done].
  destruct (py_get data _ _) as [response|e]; cbn; [|done].
  destruct (py_get response "products" _) as [products|e]; cbn; [|done].
  destruct (py_get response "numberOfProducts" _) as [total|e]; cbn; [|done].
  destruct (truthy products); cbn; [|done].
  destruct (py_iter products) as [items|e]; cbn; [|done].
  match goal with |- context [for_each ?b items ?s0] =>
    assert (Hs : start_index (for_each b items s0).2 = start_index s0)
      by exact (for_each_extract_start_index items s0);
    destruct (for_each b items s0) as [[[]|e] s1] end; cbn in *; [|done].
  destruct (py_int_ge _ total) as [[]|e]; cbn; by rewrite ?Hs.
Qed.

Lemma fetch_page_unfold (o : http_outcome) (s : state) :
  fetch_page o s
  = match page_try o s with
    | (Ok c, s1) => (Ok c, s1)
    | (Raise e, s1) =>
        (Ok Continue, add_events s1 [PrintError (start_index s1) e; Sleep 5])
    end.
Proof.
  unfold fetch_page, try_except.
  destruct (page_try o s) as [[c|e] s1]; [done|apply page_except_run].
Qed.

(** ** The loop *)

Lemma fetch_loop_cons (o : http_outcome) (rest : list http_outcome) (s : state) :
  fetch_loop (o :: rest) s
  = match fetch_page o s with
    | (Ok Break, s1) => (Ok (Some rest), s1)
    | (Ok Continue, s1) => fetch_loop rest s1
    | (Raise e, s1) => (Raise e, s1)
    end.
Proof.
  cbn. unfold mbind, M_bind, bind.
  by destruct (fetch_page o s) as [[[]|e] s1].
Qed.

Lemma fetch_loop_never_raises (network : list http_outcome) (s : state) :
  ∃ left, (fetch_loop network s).1 = Ok left.
Proof.
  revert s. induction network as [|o rest IH]; intros s; [by eexists|].
  rewrite fetch_loop_cons.
  destruct (fetch_page_never_raises o s) as [c Hc].
  destruct (fetch_page o s) as [r s1]; cbn in Hc; subst r.
  destruct c; [by eexists|apply IH].
Qed.

(** A loop that is still running after the answers [pre] goes on with the
    answers that follow. *)
Lemma fetch_loop_app (pre post : list http_outcome) (s s1 : state) :
  fetch_loop pre s = (Ok None, s1) →
  fetch_loop (pre ++ post) s = fetch_loop post s1.
Proof.
  revert s. induction pre as [|o pre IH]; intros s.
  - cbn. by intros [= ->].
  - rewrite <- app_comm_cons, !fetch_loop_cons.
    destruct (fetch_page o s) as [[[]|e] s2]; [done|apply IH|done].
Qed.

Lemma fetch_loop_db_fields (network : list http_outcome) :
  preserves db_fields (fetch_loop network).
Proof.
  induction network as [|o rest IH]; [by intros s|].
  cbn. apply preserves_bind; [apply fetch_page_db_fields|].
  intros []; [by intros s|apply IH].
Qed.

Lemma add_events_app (s : state) (evs1 evs2 : list event) :
  add_events (add_events s evs1) evs2 = add_events s (evs1 ++ evs2).
Proof. unfold add_events. cbn. by rewrite <- app_assoc. Qed.

(** C6. A turn whose request raises (a transport exception), or whose body
    does not decode (a parse exception), is caught: the turn prints the
    error with the current offset, sleeps 5 seconds and goes on to the next
    turn with the offset unchanged; so does any turn whose [try] block
    raises, and the offset is then the one the turn started with.  However
    many requests fail in a row, the loop is still running afterwards, has
    asked for that same offset each time with the same 5-second pause, and
    its next request goes to that offset again: there is no cutoff and the
    delay does not grow. *)
Theorem failed_page_retries_same_offset :
  (∀ e s,
     fetch_page (GetRaises e) s
     = (Ok Continue, add_events s (retry_events (start_index s) e)))
  ∧ (∀ e s,
       fetch_page (GetResponse 200 (Raise e)) s
       = (Ok Continue, add_events s (retry_events (start_index s) e)))
  ∧ (∀ o e s s1,
       page_try o s = (Raise e, s1) →
       start_index s1 = start_index s
       ∧ fetch_page o s
         = (Ok Continue,
            add_events s1 [PrintError (start_index s) e; Sleep 5]))
  ∧ (∀ es s,
       fetch_loop (GetRaises <$> es) s
       = (Ok None,
          add_events s (concat (retry_events (start_index s) <$> es)))
       ∧ start_index
           (add_events s (concat (retry_events (start_index s) <$> es)))
         = start_index s)
  ∧ (∀ es status json rest s,
       status ≠ 200 →
       fetch_loop ((GetRaises <$> es) ++ GetResponse status json :: rest) s
       = (Ok (Some rest),
          add_events s
            (concat (retry_events (start_index s) <$> es)
             ++ [Request (start_index s);
                 PrintFailedStatus (start_index s) status])))
  ∧ (∀ es rest s,
       fetch_loop ((GetRaises <$> es) ++ rest) s
       = fetch_loop rest
           (add_events s (concat (retry_events (start_index s) <$> es)))).
Proof.
  assert (H1 : ∀ e s,
     fetch_page (GetRaises e) s
     = (Ok Continue, add_events s (retry_events (start_index s) e))).
  { intros e s. rewrite fetch_page_unfold.
    unfold page_try, session_get. run.
    unfold add_events, retry_events. cbn. by rewrite <- app_assoc. }
  assert (H2 : ∀ es rest s,
     fetch_loop ((GetRaises <$> es) ++ rest) s
     = fetch_loop rest
         (add_events s (concat (retry_events (start_index s) <$> es)))).
  { intros es rest. induction es as [|e es IH]; intros s.
    - cbn. unfold add_events. rewrite app_nil_r. by destruct s.
    - cbn [fmap list_fmap concat].
      rewrite <- app_comm_cons, fetch_loop_cons, H1, IH.
      by rewrite add_events_app. }
  split_and!; [exact H1| | | | |exact H2].
  - intros e s. rewrite fetch_page_unfold.
    unfold page_try, session_get. run.
    unfold add_events, retry_events. cbn. by rewrite <- app_assoc.
  - intros o e s s1 Ht.
    pose proof (page_try_start_index o s) as Hs. rewrite Ht in Hs.
    split; [done|].
    by rewrite fetch_page_unfold, Ht, Hs.
  - intros es s. split; [|done].
    by rewrite <- (app_nil_r (GetRaises <$> es)), H2.
  - intros es status json rest s Hs. rewrite H2, fetch_loop_cons.
    rewrite fetch_page_unfold.
    unfold page_try, session_get. run.
    apply Z.eqb_neq in Hs. rewrite Hs. cbn.
    unfold add_events. cbn. by rewrite <- !app_assoc.
Qed.

(** C7. A response whose status is not 200 ends the loop in that very turn:
    the failure is printed with the offset, no further request is made
    (the answers that follow are never asked for), and [fetch_products]
    goes on to its persistence step, where it calls [save_to_postgresql]
    on the records accumulated so far when there is a pool, and returns
    without raising. *)
Theorem non_200_status_is_terminal (status : Z) (json : result pyval)
    (rest : list http_outcome) :
  status ≠ 200 →
  (∀ s,
     fetch_loop (GetResponse status json :: rest) s
     = (Ok (Some rest),
        add_events s [Request (start_index s);
                      PrintFailedStatus (start_index s) status]))
  ∧ (∀ pre db s s1,
       fetch_loop pre (fresh_locals s) = (Ok None, s1) →
       let stopped :=
         add_events s1 [Request (start_index s1);
                        PrintFailedStatus (start_index s1) status] in
       fetch_products (pre ++ GetResponse status json :: rest) db s
       = (Ok Returned,
          match connection_pool stopped with
          | Some _ =>
              (save_to_postgresql db (all_products stopped) stopped).2
          | None => stopped
          end)).
Proof.
  intros Hs.
  assert (H1 : ∀ s,
     fetch_loop (GetResponse status json :: rest) s
     = (Ok (Some rest),
        add_events s [Request (start_index s);
                      PrintFailedStatus (start_index s) status])).
  { intros s. rewrite fetch_loop_cons, fetch_page_unfold.
    unfold page_try, session_get. run.
    apply Z.eqb_neq in Hs. rewrite Hs. cbn.
    unfold add_events. cbn. by rewrite <- app_assoc. }
  split; [exact H1|].
  intros pre db s s1 Hpre stopped.
  unfold fetch_products. unfold mbind, M_bind, bind at 1. unfold bind at 1.
  rewrite (fetch_loop_app _ _ _ _ Hpre), H1. fold stopped.
  unfold get at 1. cbn.
  destruct (connection_pool s1) as [p|]; [|done].
  unfold bind, get at 1.
  destruct (save_to_postgresql_never_raises db (all_products stopped) stopped)
    as [s2 E].
  subst stopped. cbn in E |- *. by rewrite E.
Qed.

Lemma length_records_of (n : nat) (ds : list (gmap string pyval)) :
  length (records_of n ds) = length ds.
Proof. revert n. induction ds as [|d ds IH]; intros n; cbn; by rewrite ?IH. Qed.

(** The [try] block on a 200 response whose product list holds the
    well-formed items [ds], and at least one. *)
Lemma page_try_items (data response total : pyval)
    (ds : list (gmap string pyval)) (s : state) :
  py_get data "response" (PDict ∅) = Ok response →
  py_get response "products" (PList []) = Ok (PList (PDict <$> ds)) →
  py_get response "numberOfProducts" (PInt 0) = Ok total →
  ds ≠ [] →
  Forall (λ d, item_ok d = true) ds →
  page_try (GetResponse 200 (Ok data)) s
  = let s1 := after_items (answered s data) ds in
    match py_int_ge (Z.of_nat (length (all_products s1))) total with
    | Ok true => (Ok Break, add_events s1 [PrintFetchedAll total])
    | Ok false => (Ok Continue, (set_start_index (start_index s + 96) s1).2)
    | Raise e => (Raise e, s1)
    end.
Proof.
  intros H1 H2 H3 Hne Hok.
  unfold page_try, session_get. run.
  rewrite H1. cbn. rewrite H2. cbn. rewrite H3. cbn.
  destruct ds as [|d ds]; [done|]. cbn [fmap list_fmap length Nat.eqb negb].
  change (PDict d :: list_fmap _ _ PDict ds) with (PDict <$> (d :: ds)).
  match goal with |- context [for_each ?b _ ?s0] =>
    change (for_each b (PDict <$> d :: ds) s0)
      with (for_each (λ product_data,
                        r ← extract_product_data product_data;
                        append_product r)
              (PDict <$> d :: ds) (answered s data))
  end.
  rewrite (for_each_extract_ok _ _ Hok).
  cbv zeta.
  destruct (py_int_ge _ total) as [[]|e]; reflexivity.
Qed.

(** C8. A 200 response whose decoded product list is empty (or missing, or
    any false value) ends the loop in that turn, whatever total the server
    reports: nothing is appended and the answers that follow are never
    asked for.  With total=200, a first page of 96 items and an empty page
    at offset 96, the loop stops after two requests, at offsets 0 and 96,
    with 96 records accumulated. *)
Theorem empty_page_stops_pagination :
  (∀ data response products rest s,
     py_get data "response" (PDict ∅) = Ok response →
     py_get response "products" (PList []) = Ok products →
     truthy products = false →
     fetch_loop (GetResponse 200 (Ok data) :: rest) s
     = (Ok (Some rest),
        add_events (answered s data) [PrintNoMore (start_index s)]))
  ∧ (∀ rest, ∃ s',
       fetch_loop
         (page (replicate 96 (PDict tab_a)) 200 :: page [] 200 :: rest)
         (fresh_locals initial_state)
       = (Ok (Some rest), s')
       ∧ length (all_products s') = 96%nat
       ∧ requests (trace s') = [0; 96]
       ∧ last (trace s') = Some (PrintNoMore 96)).
Proof.
  assert (H : ∀ data response products rest s,
     py_get data "response" (PDict ∅) = Ok response →
     py_get response "products" (PList []) = Ok products →
     truthy products = false →
     fetch_loop (GetResponse 200 (Ok data) :: rest) s
     = (Ok (Some rest),
        add_events (answered s data) [PrintNoMore (start_index s)])).
  { intros data response products rest s H1 H2 H3.
    rewrite fetch_loop_cons, fetch_page_unfold.
    unfold page_try, session_get. run.
    rewrite H1. cbn. rewrite H2. cbn.
    destruct response; try discriminate H2. cbn. by rewrite H3. }
  split; [exact H|].
  intros rest. eexists. split.
  - unfold page. rewrite fetch_loop_cons, fetch_page_unfold.
    rewrite (page_try_items (body (replicate 96 (PDict tab_a)) 200)
               (response_object (replicate 96 (PDict tab_a)) 200)
               (PInt 200) (replicate 96 tab_a));
      [|reflexivity|by rewrite fmap_replicate|reflexivity|done|].
    2:{ apply Forall_replicate. by vm_compute. }
    cbv zeta. unfold py_int_ge, after_items at 1.
    cbn [all_products]. rewrite length_app, length_records_of.
    cbn [length replicate Z.leb answered all_products fresh_locals
         initial_state Nat.add app].
    replace (200 <=? Z.of_nat 96) with false by (by vm_compute).
    erewrite H; [reflexivity|reflexivity|reflexivity|reflexivity].
  - split_and!.
    + cbn [all_products add_events answered set_start_index snd].
      unfold after_items. cbn [all_products fresh_locals answered
        initial_state app]. by rewrite length_records_of.
    + reflexivity.
    + reflexivity.
Qed.

(** C2, as the code has it. When a 200 response brings a non-empty list of
    well-formed items and the records accumulated with it reach the total
    the server reports, the loop stops in that same turn through the
    count-match test: the total is printed and no further request is made.
    With total=96 and a first page of 96 items, exactly one page is
    requested and the loop stops in its first turn. *)
Theorem count_match_stops_in_same_turn :
  (∀ data response ds total rest s,
     py_get data "response" (PDict ∅) = Ok response →
     py_get response "products" (PList []) = Ok (PList (PDict <$> ds)) →
     py_get response "numberOfProducts" (PInt 0) = Ok (PInt total) →
     ds ≠ [] →
     Forall (λ d, item_ok d = true) ds →
     total ≤ Z.of_nat (length (all_products s) + length ds) →
     fetch_loop (GetResponse 200 (Ok data) :: rest) s
     = (Ok (Some rest),
        add_events (after_items (answered s data) ds)
          [PrintFetchedAll (PInt total)]))
  ∧ (∀ rest,
       let network := page (replicate 96 (PDict tab_a)) 96 :: rest in
       ∃ s',
         fetch_loop network (fresh_locals initial_state)
         = (Ok (Some rest), s')
         ∧ turns network rest = 1%nat
         ∧ requests (trace s') = [0]
         ∧ length (all_products s') = 96%nat
         ∧ last (trace s') = Some (PrintFetchedAll (PInt 96))).
Proof.
  assert (H : ∀ data response ds total rest s,
     py_get data "response" (PDict ∅) = Ok response →
     py_get response "products" (PList []) = Ok (PList (PDict <$> ds)) →
     py_get response "numberOfProducts" (PInt 0) = Ok (PInt total) →
     ds ≠ [] →
     Forall (λ d, item_ok d = true) ds →
     total ≤ Z.of_nat (length (all_products s) + length ds) →
     fetch_loop (GetResponse 200 (Ok data) :: rest) s
     = (Ok (Some rest),
        add_events (after_items (answered s data) ds)
          [PrintFetchedAll (PInt total)])).
  { intros data response ds total rest s H1 H2 H3 Hne Hok Hle.
    rewrite fetch_loop_cons, fetch_page_unfold.
    rewrite (page_try_items data response (PInt total) ds) by done.
    cbv zeta. unfold py_int_ge, after_items at 1. cbn [all_products].
    rewrite length_app, length_records_of. cbn [answered all_products].
    apply Z.leb_le in Hle. by rewrite Hle. }
  split; [exact H|].
  intros rest network. eexists. split_and!.
  - unfold network, page.
    apply (H (body (replicate 96 (PDict tab_a)) 96)
             (response_object (replicate 96 (PDict tab_a)) 96)
             (replicate 96 tab_a));
      [reflexivity|by rewrite fmap_replicate|reflexivity|done| |by vm_compute].
    apply Forall_replicate. by vm_compute.
  - unfold turns, network. cbn [length]. lia.
  - reflexivity.
  - unfold add_events, after_items. cbn [all_products fresh_locals answered
      initial_state app]. by rewrite length_records_of.
  - reflexivity.
Qed.

(** An item whose title is usable and whose brand has no first element:
    the clock is read and the line printed before the call raises. *)
Lemma extract_product_data_brand_raises (d : gmap string pyval) (e : exn)
    (s : state) :
  is_Some (title_of d) →
  py_first (default (PList [PStr "No Brand Available"]) (d !! "brand"))
  = Raise e →
  extract_product_data (PDict d) s
  = (Raise e,
     {| start_index := start_index s; all_products := all_products s;
        all_responses := all_responses s;
        trace := trace s ++ [product_line d];
        clock_reads := S (clock_reads s);
        connection_pool := connection_pool s;
        transaction := transaction s; table := table s |}).
Proof.
  intros [t Ht] Hb. unfold title_of in Ht.
  destruct (default _ (d !! "nameEn")) as [| | | |t'| |] eqn:Hn;
    try discriminate. injection Ht as ->.
  unfold extract_product_data, utcnow, product_line, title_of. run.
  rewrite Hn. cbn. by rewrite Hb.
Qed.

(** The [try] block on a 200 response whose product list holds the
    well-formed items [pre] and then an item on which the extraction
    raises: the block ends there, in the state the failed call left. *)
Lemma page_try_partial (data response bad : pyval)
    (pre : list (gmap string pyval)) (post : list pyval) (e : exn)
    (s sb : state) :
  py_get data "response" (PDict ∅) = Ok response →
  py_get response "products" (PList [])
  = Ok (PList ((PDict <$> pre) ++ bad :: post)) →
  Forall (λ d, item_ok d = true) pre →
  extract_product_data bad (after_items (answered s data) pre) = (Raise e, sb) →
  page_try (GetResponse 200 (Ok data)) s = (Raise e, sb).
Proof.
  intros H1 H2 Hok Hbad.
  unfold page_try, session_get. run.
  rewrite H1. cbn. rewrite H2. cbn.
  destruct response; try discriminate H2. cbn.
  rewrite length_app. cbn [length].
  replace (length (PDict <$> pre) + S (length post))%nat
    with (S (length (PDict <$> pre) + length post)) by lia.
  cbn [Nat.eqb negb].
  match goal with |- context [for_each ?b _ ?s0] =>
    change (for_each b ((PDict <$> pre) ++ bad :: post) s0)
      with (for_each (λ product_data,
                        r ← extract_product_data product_data;
                        append_product r)
              ((PDict <$> pre) ++ bad :: post) (answered s data))
  end.
  rewrite for_each_app, (for_each_extract_ok _ _ Hok).
  cbn [for_each]. unfold mbind, M_bind. cbv beta delta [bind].
  by rewrite Hbad.
Qed.

Lemma save_to_postgresql_ok (products : list normalized_record)
    (p : pool) (s : state) :
  connection_pool s = Some p →
  (used p < maxconn p)%nat →
  save_to_postgresql no_fault products s
  = (Ok tt,
     {| start_index := start_index s; all_products := all_products s;
        all_responses := all_responses s;
        trace := trace s ++ [PrintSaved (length products)];
        clock_reads := clock_reads s;
        connection_pool := Some p;
        transaction := [];
        table := table s ++ (transaction s ++ (row_of <$> products)) |}).
Proof.
  intros Hp Hlt. apply Nat.ltb_lt in Hlt. unfold Nat.ltb in Hlt.
  destruct s as [i aps ars t n cp tr tb]. cbn in Hp. subst cp.
  destruct p as [[|m] u]; [discriminate|]. cbn in Hlt.
  unfold save_to_postgresql, try_except, getconn, cursor, execute_batch,
    commit, putconn, db_do, no_fault, set_connection_pool, set_transaction,
    set_table. run.
  by rewrite Hlt.
Qed.

(** ** The whole run *)

Lemma fetch_products_unfold (network : list http_outcome) (db : db_behaviour)
    (s : state) :
  fetch_products network db s
  = match fetch_loop network (fresh_locals s) with
    | (Ok None, s1) => (Ok Fetching, s1)
    | (Ok (Some _), s1) =>
        match connection_pool s1 with
        | Some _ =>
            (Ok Returned, (save_to_postgresql db (all_products s1) s1).2)
        | None => (Ok Returned, s1)
        end
    | (Raise e, s1) => (Raise e, s1)
    end.
Proof.
  unfold fetch_products. unfold mbind, M_bind, bind at 1. unfold bind at 1.
  destruct (fetch_loop network (fresh_locals s)) as [[[rest|]|e] s1];
    [|done|done].
  unfold get at 1. cbn. destruct (connection_pool s1) as [p|]; [|done].
  unfold bind, get at 1.
  by destruct (save_to_postgresql_never_raises db (all_products s1) s1)
    as [s2 ->].
Qed.

Lemma create_pool_connected (s : state) :
  create_pool Connected s
  = (Ok tt,
     add_events (with_pool (Some {| maxconn := 100; used := 0 |}) s)
       [PrintConnected]).
Proof. reflexivity. Qed.

Lemma create_pool_operational_error (s : state) :
  create_pool (ConnectFails OperationalError) s
  = (Ok tt, add_events (with_pool None s) [PrintConnectError]).
Proof. reflexivity. Qed.

Lemma script_unfold (c : connect_outcome) (network : list http_outcome)
    (db : db_behaviour) (s : state) :
  script c network db s
  = match create_pool c s with
    | (Ok _, s0) => fetch_products network db s0
    | (Raise e, s0) => (Raise e, s0)
    end.
Proof. reflexivity. Qed.

(** C10. When an item of a page makes the extraction raise after the
    well-formed items [pre] before it have been appended, those records
    stay in the accumulator, the error is printed, the script sleeps and
    the loop goes on at the same offset.  A turn over a page of well-formed
    items appends one record for each of them, whatever is accumulated
    already, so a later answer for that offset appends the same items
    again: in the sample run the item "Tab A" is appended twice out of one
    page, and the three records, duplicate included, are the rows written
    to the table. *)
Theorem partial_page_is_kept_and_refetched :
  (∀ data response (pre : list (gmap string pyval)) bad post e rest s,
     py_get data "response" (PDict ∅) = Ok response →
     py_get response "products" (PList [])
     = Ok (PList ((PDict <$> pre) ++ bad :: post)) →
     Forall (λ d, item_ok d = true) pre →
     (∀ s0, (extract_product_data bad s0).1 = Raise e) →
     ∃ s1,
       fetch_loop (GetResponse 200 (Ok data) :: rest) s
       = fetch_loop rest
           (add_events s1 [PrintError (start_index s) e; Sleep 5])
       ∧ all_products s1
         = (all_products s ++ records_of (clock_reads s) pre)%list
       ∧ start_index s1 = start_index s)
  ∧ (∀ data response (ds : list (gmap string pyval)) total s,
       py_get data "response" (PDict ∅) = Ok response →
       py_get response "products" (PList []) = Ok (PList (PDict <$> ds)) →
       py_get response "numberOfProducts" (PInt 0) = Ok total →
       ds ≠ [] →
       Forall (λ d, item_ok d = true) ds →
       all_products (fetch_page (GetResponse 200 (Ok data)) s).2
       = (all_products s ++ records_of (clock_reads s) ds)%list)
  ∧ (∃ s',
       script Connected
         [ page [PDict tab_a; PDict tab_b_no_brand] 2;
           page [PDict tab_a; PDict tab_b] 2 ]
         no_fault initial_state
       = (Ok Returned, s')
       ∧ requests (trace s') = [0; 0]
       ∧ all_products s'
         = [ record_of (clock 0) tab_a; record_of (clock 2) tab_a;
             record_of (clock 3) tab_b ]
       ∧ table s' = row_of <$> all_products s').
Proof.
  split_and!.
  - intros data response pre bad post e rest s H1 H2 Hok Hbad.
    set (s0 := after_items (answered s data) pre).
    specialize (Hbad s0).
    pose proof (preserves_extract all_products bad
                  (λ _ _, eq_refl) (λ _, eq_refl) s0) as Hp.
    pose proof (preserves_extract start_index bad
                  (λ _ _, eq_refl) (λ _, eq_refl) s0) as Hq.
    destruct (extract_product_data bad s0) as [r s1] eqn:E.
    cbn in Hbad, Hp, Hq. subst r. exists s1.
    rewrite fetch_loop_cons, fetch_page_unfold.
    rewrite (page_try_partial _ _ _ _ _ _ _ _ H1 H2 Hok E), Hq.
    split_and!; done.
  - intros data response ds total s H1 H2 H3 Hne Hok.
    rewrite fetch_page_unfold, (page_try_items _ _ _ _ _ H1 H2 H3 Hne Hok).
    cbv zeta. by destruct (py_int_ge _ total) as [[]|e].
  - eexists. split_and!.
    + rewrite script_unfold, create_pool_connected, fetch_products_unfold.
      unfold page. rewrite fetch_loop_cons, fetch_page_unfold.
      erewrite (page_try_partial _ (response_object _ 2) _ [tab_a]);
        [|reflexivity|reflexivity|by repeat constructor|].
      2:{ apply extract_product_data_brand_raises; [by eexists|reflexivity]. }
      rewrite fetch_loop_cons, fetch_page_unfold.
      erewrite (page_try_items _ (response_object _ 2) (PInt 2)
                  [tab_a; tab_b]);
        [|reflexivity|reflexivity|reflexivity|done|by repeat constructor].
      cbv zeta. unfold py_int_ge, after_items at 1. cbn [all_products].
      rewrite !length_app, !length_records_of.
      cbn [length add_events answered all_products after_items fresh_locals
           app Nat.add records_of].
      replace (2 <=? Z.of_nat 3) with true by (by vm_compute).
      cbn [connection_pool add_events after_items answered].
      erewrite save_to_postgresql_ok; [reflexivity|reflexivity|cbn; lia].
    + reflexivity.
    + reflexivity.
    + reflexivity.
Qed.

(** C1, on the failing path. With a pool that has a free connection, a batch
    whose [cursor()], [execute_batch] or [commit] raises leaves
    [save_to_postgresql] through its [except] clause: the error is printed
    and the call returns without raising, but [putconn] is never reached
    and the connection stays handed out ([used] is 1 afterwards).  Only
    when every call succeeds is the connection given back. *)
Theorem save_to_postgresql_failure_keeps_connection
    (products : list normalized_record) (e : exn) (s0 : state) :
  let s := with_pool (Some {| maxconn := 100; used := 0 |}) s0 in
  let leaked :=
    add_events (with_pool (Some {| maxconn := 100; used := 1 |}) s0)
      [PrintSaveError e] in
  save_to_postgresql (fails_at ExecuteBatch e) products s = (Ok tt, leaked)
  ∧ save_to_postgresql (fails_at Cursor e) products s = (Ok tt, leaked)
  ∧ (∃ s', save_to_postgresql (fails_at Commit e) products s = (Ok tt, s')
           ∧ connection_pool s' = Some {| maxconn := 100; used := 1 |}
           ∧ table s' = table s0)
  ∧ (∃ s', save_to_postgresql no_fault products s = (Ok tt, s')
           ∧ connection_pool s' = Some {| maxconn := 100; used := 0 |}
           ∧ table s'
             = (table s0 ++ (transaction s0 ++ (row_of <$> products)))%list).
Proof.
  intros s leaked. split_and!.
  - reflexivity.
  - reflexivity.
  - eexists. split_and!; reflexivity.
  - eexists. split.
    + apply (save_to_postgresql_ok _ {| maxconn := 100; used := 0 |});
        [reflexivity|cbn; lia].
    + by split.
Qed.

(** ** Fetching does not depend on the pool *)

Lemma blind_ret {A} (a : A) : pool_blind (mret a).
Proof. by intros p s. Qed.

Lemma blind_lift {A} (r : result A) : pool_blind (lift r).
Proof. by intros p s. Qed.

Lemma blind_raise {A} (e : exn) : pool_blind (raise e : M A).
Proof. by intros p s. Qed.

Lemma blind_bind {A B} (m : M A) (k : A → M B) :
  pool_blind m → (∀ a, pool_blind (k a)) → pool_blind (m ≫= k).
Proof.
  intros Hm Hk p s. unfold mbind, M_bind, bind. rewrite Hm.
  destruct (m s) as [[a|e] s1]; [apply Hk|done].
Qed.

Lemma blind_try_except {A} (m : M A) (h : exn → M A) :
  pool_blind m → (∀ e, pool_blind (h e)) → pool_blind (try_except m h).
Proof.
  intros Hm Hh p s. unfold try_except. rewrite Hm.
  destruct (m s) as [[a|e] s1]; [done|apply Hh].
Qed.

Lemma blind_for_each {A} (body : A → M unit) (l : list A) :
  (∀ a, pool_blind (body a)) → pool_blind (for_each body l).
Proof.
  intros Hb. induction l as [|a l IH]; [by intros p s|].
  cbn. by apply blind_bind.
Qed.

Ltac blind_step :=
  first
    [ apply blind_bind; [|intros ?]
    | apply blind_try_except; [|intros ?]
    | apply blind_for_each; intros ?
    | apply blind_lift
    | apply blind_ret
    | apply blind_raise
    | (by intros ? ?)
    | match goal with
      | |- pool_blind (match ?x with _ => _ end) => destruct x
      end ].

Lemma blind_fetch_page (o : http_outcome) : pool_blind (fetch_page o).
Proof.
  unfold fetch_page, page_try, page_except, session_get,
    extract_product_data, print, sleep.
  repeat blind_step.
Qed.

Lemma blind_fetch_loop (network : list http_outcome) :
  pool_blind (fetch_loop network).
Proof.
  induction network as [|o rest IH]; [by intros p s|].
  cbn. apply blind_bind; [apply blind_fetch_page|].
  intros []; [by intros p s|apply IH].
Qed.

(** C9. When the creation of the pool fails with the OperationalError that
    psycopg2 raises for a database it cannot reach, the error is printed,
    [connection_pool] stays None and the script goes on: the loop runs as
    it would with a pool (same result, same records, same requests), the
    script returns without raising once the loop has stopped, and nothing
    is done after the loop: no database call, the table is untouched. *)
Theorem degraded_mode_skips_persistence (network : list http_outcome)
    (db : db_behaviour) :
  let degraded := add_events initial_state [PrintConnectError] in
  create_pool (ConnectFails OperationalError) initial_state
  = (Ok tt, degraded)
  ∧ connection_pool degraded = None
  ∧ (∃ left s',
       fetch_loop network (fresh_locals degraded) = (Ok left, s')
       ∧ script (ConnectFails OperationalError) network db initial_state
         = (Ok (if left is Some _ then Returned else Fetching), s')
       ∧ db_fields s' = (None, [], []))
  ∧ (∀ p,
       fetch_loop network (with_pool p (fresh_locals degraded))
       = let '(r, s') := fetch_loop network (fresh_locals degraded) in
         (r, with_pool p s')).
Proof.
  intros degraded. split_and!; [done|done| |].
  - pose proof (fetch_loop_db_fields network (fresh_locals degraded)) as Hdb.
    destruct (fetch_loop_never_raises network (fresh_locals degraded))
      as [left Hl].
    destruct (fetch_loop network (fresh_locals degraded)) as [r s'] eqn:E.
    cbn in Hl, Hdb. subst r. exists left, s'. split_and!; [done| |done].
    rewrite script_unfold, create_pool_operational_error,
      fetch_products_unfold.
    change (add_events (with_pool None initial_state) [PrintConnectError])
      with degraded.
    rewrite E. destruct left as [rest|]; [|done].
    injection Hdb as -> _ _. done.
  - intros p. apply blind_fetch_loop.
Qed.

(** * Further properties *)

(** ** Extraction: when it returns, and what it copies *)

(** Extraction of a dictionary returns exactly when its title (or the
    default title) is a string and the first element of its brand (or of
    the default brand list) exists and is a string; a value that is not a
    dictionary makes it raise AttributeError after the clock has been read,
    and before anything is printed. *)
Theorem extract_product_data_returns_iff (d : gmap string pyval) (s : state) :
  ((∃ r s', extract_product_data (PDict d) s = (Ok r, s'))
   ↔ (∃ t, default (PStr "No Name Available") (d !! "nameEn") = PStr t)
     ∧ (∃ b, py_first (default (PList [PStr "No Brand Available"])
                         (d !! "brand"))
             = Ok (PStr b)))
  ∧ (∀ v, (∀ d', v ≠ PDict d') →
          extract_product_data v s = (Raise AttributeError, (utcnow s).2)).
Proof.
  split; [split|].
  - intros (r & s' & E). revert E.
    unfold extract_product_data, utcnow. run.
    destruct (default _ (d !! "nameEn")) as [| | | |t| |]; cbn;
      try discriminate.
    destruct (py_first _) as [[| | | |b| |]|e]; cbn; try discriminate.
    eauto.
  - intros [[t Ht] [b Hb]]. eexists _, _.
    apply extract_product_data_ok, item_ok_intro.
    + unfold title_of. rewrite Ht. by eexists.
    + unfold brand_of. rewrite Hb. by eexists.
  - intros v Hv. destruct v; try reflexivity. by destruct (Hv d0).
Qed.

(** The fields of a raw item that are present are copied as they are,
    whatever their JSON type, and a default is used for a missing key
    only: a wasPrice that is present but null gives old_price None, not
    new_price. *)
Theorem extract_product_data_copies_present_fields
    (d : gmap string pyval) (s : state) :
  is_Some (title_of d) →
  is_Some (brand_of d) →
  ∃ r s',
    extract_product_data (PDict d) s = (Ok r, s')
    ∧ (∀ v, d !! "sellingPrice" = Some v → new_price r = v)
    ∧ (∀ v, d !! "wasPrice" = Some v → old_price r = v)
    ∧ (d !! "wasPrice" = Some PNone → old_price r = PNone)
    ∧ (∀ v, d !! "productUrl" = Some v → link r = v)
    ∧ (∀ v, d !! "inStockFlag" = Some v → stock r = v).
Proof.
  intros Ht Hb. eexists _, _.
  split; [by apply extract_product_data_ok, item_ok_intro|].
  unfold record_of. cbn.
  split_and!; intros;
    match goal with H : _ !! _ = Some _ |- _ => by rewrite H end.
Qed.

(** ** The split of the title *)

Lemma split_comma_cons (c : ascii) (s : string) :
  split_comma (String c s)
  = if Ascii.eqb c "," then (EmptyString, Some s)
    else ((String c (split_comma s).1), (split_comma s).2).
Proof. cbn. destruct (Ascii.eqb c ","); [done|]. by destruct (split_comma s). Qed.

(** [split(',', 1)] cuts at the first comma and loses nothing: the part
    before holds no comma, and the title is that part alone when there is no
    comma, or that part, a comma and the rest. *)
Theorem split_comma_round_trip (s : string) :
  (","%char ∉ list_ascii_of_string (split_comma s).1)
  ∧ (match (split_comma s).2 with
     | None => s = (split_comma s).1
     | Some rest => s = (split_comma s).1 +:+ "," +:+ rest
     end).
Proof.
  induction s as [|c s [IH1 IH2]]; [split; [apply not_elem_of_nil|done]|].
  rewrite split_comma_cons.
  destruct (Ascii.eqb_spec c ",") as [->|Hc]; cbn.
  - split; [apply not_elem_of_nil|done].
  - split.
    + apply not_elem_of_cons. split; [congruence|done].
    + destruct (split_comma s).2; exact (f_equal (String c) IH2).
Qed.

Lemma split_comma_at_comma (h a : string) :
  ","%char ∉ list_ascii_of_string h →
  split_comma (h +:+ "," +:+ a) = (h, Some a).
Proof.
  induction h as [|c h IH]; [done|].
  cbn [list_ascii_of_string]. intros H.
  apply not_elem_of_cons in H as [Hc Hh].
  change (String c h +:+ "," +:+ a) with (String c (h +:+ "," +:+ a)).
  rewrite split_comma_cons, (IH Hh).
  by destruct (Ascii.eqb_spec c ",").
Qed.

(** For a title [h,a] cut at its first comma, the name is [h]; the specs
    are the processor-core value alone when nothing follows the comma, and
    otherwise the text [a], as it is, then ", " and the processor core. *)
Theorem extract_name_specs_by_title (d : gmap string pyval) (s : state)
    (h a : string) :
  is_Some (brand_of d) →
  d !! "nameEn" = Some (PStr (h +:+ "," +:+ a)) →
  ","%char ∉ list_ascii_of_string h →
  ∃ r s',
    extract_product_data (PDict d) s = (Ok r, s')
    ∧ name r = h
    ∧ specs r
      = let core := default (PStr "No Processor Info Available")
                      (d !! "featureEnProcessorCore") in
        if String.eqb a "" then core
        else PStr (a +:+ ", " +:+ py_str core).
Proof.
  intros Hb Hn Hh. eexists _, _. split.
  - apply extract_product_data_ok, item_ok_intro; [|done].
    rewrite (title_of_present _ _ Hn). by eexists.
  - unfold record_of. rewrite (title_of_present _ _ Hn). cbn.
    by rewrite (split_comma_at_comma h a Hh).
Qed.

(** ** The brand table, again *)

Lemma brand_mapping_keys (k v : string) :
  brand_mapping !! k = Some v →
  (k = "SAMSNG" ∧ v = "Samsung") ∨ (k ≠ "SAMSNG" ∧ upper v = k).
Proof.
  intros H. apply elem_of_list_to_map_2 in H.
  repeat (apply elem_of_cons in H as [H|H];
          [injection H as -> ->;
           first [by left | by right]|]).
  by apply elem_of_nil in H.
Qed.

(** The correction changes the capitalisation of a brand and nothing else,
    with one exception: a brand spelled SAMSNG (in any case) becomes
    Samsung. *)
Theorem format_brand_changes_case_only (b : string) :
  (upper b ≠ "SAMSNG" → upper (format_brand b) = upper b)
  ∧ (upper b = "SAMSNG" → format_brand b = "Samsung").
Proof.
  unfold format_brand. split.
  - intros Hne. destruct (brand_mapping !! upper b) as [v|] eqn:E; [|done].
    cbn. by destruct (brand_mapping_keys _ _ E) as [[? _]|[_ ?]].
  - by intros ->.
Qed.

(** ** The timestamp *)

(** The timestamp is cut to the hour: two clock readings in the same hour
    (of the clock moved three hours ahead) give the same text, and the
    text is the one of the start of that hour. *)
Theorem current_time_str_same_hour (t1 t2 : Z) :
  (t1 + 10800) / 3600 = (t2 + 10800) / 3600 →
  current_time_str t1 = current_time_str t2
  ∧ current_time_str t1 = strftime (3600 * ((t1 + 10800) / 3600)).
Proof.
  intros H. unfold current_time_str.
  assert (E : ∀ t, t + 3 * 3600 - (t + 3 * 3600) mod 3600
                   = 3600 * ((t + 10800) / 3600)).
  { intros t. change (3 * 3600) with 10800.
    pose proof (Z.div_mod (t + 10800) 3600). lia. }
  cbv zeta. rewrite !E, H. done.
Qed.

(** ** The requests of the loop *)

#[local] Arguments requests : simpl never.

Lemma requests_app (t1 t2 : list event) :
  requests (t1 ++ t2) = (requests t1 ++ requests t2)%list.
Proof. apply omap_app. Qed.

Lemma preserves_requests_extract (v : pyval) :
  preserves (λ s, requests (trace s)) (extract_product_data v).
Proof.
  unfold extract_product_data.
  repeat first
    [ apply preserves_bind; [|intros ?]
    | apply preserves_lift
    | apply preserves_ret
    | (by intros ?)
    | (intros ?; cbn; rewrite requests_app; unfold requests at 2; cbn;
       by rewrite app_nil_r) ].
Qed.

Lemma preserves_requests_for_each (items : list pyval) :
  preserves (λ s, requests (trace s))
    (for_each (λ product_data,
                 r ← extract_product_data product_data; append_product r)
       items).
Proof.
  apply preserves_for_each. intros v. apply preserves_bind.
  - apply preserves_requests_extract.
  - by intros r s.
Qed.

(** The [try] block makes one request, at the current offset. *)
Lemma page_try_requests (o : http_outcome) (s : state) :
  requests (trace (page_try o s).2) = (requests (trace s) ++ [start_index s])%list.
Proof.
  assert (R1 : ∀ t e, (∀ i, e ≠ Request i) →
                      requests (t ++ [e]) = requests t).
  { intros t e He. rewrite requests_app. unfold requests at 2.
    destruct e; cbn; rewrite ?app_nil_r; try done. by destruct (He start). }
  assert (R0 : ∀ t, requests (t ++ [Request (start_index s)])
                    = (requests t ++ [start_index s])%list).
  { intros t. by rewrite requests_app. }
  unfold page_try, session_get. run.
  destruct o as [e|status json]; cbn; [apply R0|].
  destruct (status =? 200); cbn; [|by rewrite R1, R0].
  destruct json as [data|e]; cbn; [|apply R0].
  destruct (py_get data _ _) as [response|e]; cbn; [|apply R0].
  destruct (py_get response "products" _) as [products|e]; cbn; [|apply R0].
  destruct (py_get response "numberOfProducts" _) as [total|e]; cbn;
    [|apply R0].
  destruct (truthy products); cbn; [|by rewrite R1, R0].
  destruct (py_iter products) as [items|e]; cbn; [|apply R0].
  match goal with |- context [for_each ?b items ?s0] =>
    assert (Hs : requests (trace (for_each b items s0).2)
                 = requests (trace s0))
      by exact (preserves_requests_for_each items s0);
    destruct (for_each b items s0) as [[[]|e] s1] end; cbn in *;
    [|by rewrite Hs, R0].
  destruct (py_int_ge _ total) as [[]|e]; cbn;
    rewrite ?R1, Hs, R0; done.
Qed.

(** One turn of the loop makes exactly one request, at the offset the turn
    starts with, and leaves the offset where it was or 96 further.  So the
    offsets a run of the loop asks for, in order, start at the current
    offset and each is the one before or the one before plus 96: a page is
    never skipped, and the loop never goes back. *)
Theorem fetch_loop_requests_are_paged (network : list http_outcome)
    (s : state) :
  (∀ o,
     requests (trace (fetch_page o s).2)
     = (requests (trace s) ++ [start_index s])%list
     ∧ (start_index (fetch_page o s).2 = start_index s
        ∨ start_index (fetch_page o s).2 = start_index s + 96))
  ∧ ∃ offs,
      requests (trace (fetch_loop network s).2) = (requests (trace s) ++ offs)%list
      ∧ paged_from (start_index s) offs = true
      ∧ (length offs ≤ length network)%nat.
Proof.
  assert (H1 : ∀ o s,
     requests (trace (fetch_page o s).2)
     = (requests (trace s) ++ [start_index s])%list
     ∧ (start_index (fetch_page o s).2 = start_index s
        ∨ start_index (fetch_page o s).2 = start_index s + 96)).
  { intros o s0. rewrite fetch_page_unfold.
    pose proof (page_try_requests o s0) as Hr.
    pose proof (page_try_start_index o s0) as Hi.
    destruct (page_try o s0) as [[[]|e] s1]; cbn in *; auto.
    split; [|auto].
    unfold add_events. cbn. rewrite requests_app, Hr.
    unfold requests at 3. cbn. by rewrite app_nil_r. }
  split; [intros o; apply H1|].
  revert s. induction network as [|o rest IH]; intros s.
  - exists []. cbn. by rewrite app_nil_r.
  - rewrite fetch_loop_cons. destruct (H1 o s) as [Hr Hi].
    destruct (fetch_page o s) as [[[]|e] s1]; cbn in Hr, Hi.
    + exists [start_index s]. cbn. rewrite Z.eqb_refl.
      split_and!; [done|done|lia].
    + destruct (IH s1) as (offs & Ho & Hp & Hl).
      exists (start_index s :: offs). rewrite Ho, Hr, <- app_assoc.
      split_and!; [done| |cbn; lia].
      cbn. rewrite Z.eqb_refl. cbn.
      destruct Hi as [Hi|Hi]; rewrite Hi in Hp; rewrite Hp;
        by rewrite ?orb_true_r.
    + exists [start_index s]. cbn. rewrite Z.eqb_refl.
      split_and!; [done|done|lia].
Qed.

(** ** One turn of the loop: the other ways it can go *)

(** A page of well-formed items that leaves the accumulator short of the
    reported total ends its turn normally: one record per item is appended,
    the offset moves 96 further, however many items the page held, and the
    loop goes on from there. *)
Theorem page_short_of_total_advances_by_96 (data response : pyval)
    (ds : list (gmap string pyval)) (total : Z) (rest : list http_outcome)
    (s : state) :
  py_get data "response" (PDict ∅) = Ok response →
  py_get response "products" (PList []) = Ok (PList (PDict <$> ds)) →
  py_get response "numberOfProducts" (PInt 0) = Ok (PInt total) →
  ds ≠ [] →
  Forall (λ d, item_ok d = true) ds →
  Z.of_nat (length (all_products s) + length ds) < total →
  let next :=
    {| start_index := start_index s + 96;
       all_products :=
         (all_products s ++ records_of (clock_reads s) ds)%list;
       all_responses := (all_responses s ++ [data])%list;
       trace :=
         (trace s ++ Request (start_index s) :: (product_line <$> ds))%list;
       clock_reads := (clock_reads s + length ds)%nat;
       connection_pool := connection_pool s;
       transaction := transaction s;
       table := table s |} in
  fetch_page (GetResponse 200 (Ok data)) s = (Ok Continue, next)
  ∧ fetch_loop (GetResponse 200 (Ok data) :: rest) s = fetch_loop rest next.
Proof.
  intros H1 H2 H3 Hne Hok Hlt next.
  assert (E : fetch_page (GetResponse 200 (Ok data)) s = (Ok Continue, next)).
  { rewrite fetch_page_unfold.
    rewrite (page_try_items data response (PInt total) ds) by done.
    cbv zeta. unfold py_int_ge, after_items at 1. cbn [all_products].
    rewrite length_app, length_records_of. cbn [answered all_products].
    apply Z.leb_gt in Hlt. rewrite Hlt.
    unfold next, set_start_index, after_items, answered. cbn.
    by rewrite <- app_assoc. }
  split; [exact E|]. by rewrite fetch_loop_cons, E.
Qed.

(** When the reported total is not a number (null, a string, a list or an
    object), the count test raises TypeError after the items of the page
    have been appended: the turn ends in the [except] clause, which prints
    the error and sleeps, with the records kept and the offset unchanged,
    and the loop goes on, asking for the same offset again. *)
Theorem non_numeric_total_fails_after_appending (data response total : pyval)
    (ds : list (gmap string pyval)) (rest : list http_outcome) (s : state) :
  py_get data "response" (PDict ∅) = Ok response →
  py_get response "products" (PList []) = Ok (PList (PDict <$> ds)) →
  py_get response "numberOfProducts" (PInt 0) = Ok total →
  ds ≠ [] →
  Forall (λ d, item_ok d = true) ds →
  match total with
  | PNone | PStr _ | PList _ | PDict _ => True
  | _ => False
  end →
  let failed :=
    {| start_index := start_index s;
       all_products :=
         (all_products s ++ records_of (clock_reads s) ds)%list;
       all_responses := (all_responses s ++ [data])%list;
       trace :=
         (trace s ++ Request (start_index s) :: (product_line <$> ds)
          ++ [PrintError (start_index s) TypeError; Sleep 5])%list;
       clock_reads := (clock_reads s + length ds)%nat;
       connection_pool := connection_pool s;
       transaction := transaction s;
       table := table s |} in
  page_try (GetResponse 200 (Ok data)) s
  = (Raise TypeError, after_items (answered s data) ds)
  ∧ fetch_page (GetResponse 200 (Ok data)) s = (Ok Continue, failed)
  ∧ fetch_loop (GetResponse 200 (Ok data) :: rest) s
    = fetch_loop rest failed.
Proof.
  intros H1 H2 H3 Hne Hok Ht failed.
  assert (E0 : page_try (GetResponse 200 (Ok data)) s
               = (Raise TypeError, after_items (answered s data) ds)).
  { rewrite (page_try_items data response total ds) by done.
    cbv zeta. by destruct total as [| | |[]| | |]. }
  assert (E : fetch_page (GetResponse 200 (Ok data)) s
              = (Ok Continue, failed)).
  { rewrite fetch_page_unfold, E0.
    unfold failed, add_events, after_items, answered. cbn.
    by rewrite <- !app_assoc. }
  split_and!; [exact E0|exact E|]. by rewrite fetch_loop_cons, E.
Qed.

(** A response object without numberOfProducts counts as a total of 0: the
    first page that holds items ends the loop. *)
Theorem missing_total_stops_after_first_page (dd r : gmap string pyval)
    (ds : list (gmap string pyval)) (rest : list http_outcome) (s : state) :
  dd !! "response" = Some (PDict r) →
  r !! "products" = Some (PList (PDict <$> ds)) →
  r !! "numberOfProducts" = None →
  ds ≠ [] →
  Forall (λ d, item_ok d = true) ds →
  fetch_loop (GetResponse 200 (Ok (PDict dd)) :: rest) s
  = (Ok (Some rest),
     add_events (after_items (answered s (PDict dd)) ds)
       [PrintFetchedAll (PInt 0)]).
Proof.
  intros H1 H2 H3 Hne Hok.
  rewrite fetch_loop_cons, fetch_page_unfold.
  rewrite (page_try_items (PDict dd) (PDict r) (PInt 0) ds);
    [|by cbn; rewrite H1|by cbn; rewrite H2|by cbn; rewrite H3|done|done].
  cbv zeta. unfold py_int_ge.
  replace (0 <=? _) with true; [done|].
  symmetry. apply Z.leb_le. lia.
Qed.

(** A decoded object without a response key, or whose response object has
    no products key, is taken for an empty page: the loop stops there and
    appends nothing. *)
Theorem missing_keys_stop_pagination (dd : gmap string pyval)
    (rest : list http_outcome) (s : state) :
  (dd !! "response" = None
   ∨ ∃ r, dd !! "response" = Some (PDict r) ∧ r !! "products" = None) →
  fetch_loop (GetResponse 200 (Ok (PDict dd)) :: rest) s
  = (Ok (Some rest),
     add_events (answered s (PDict dd)) [PrintNoMore (start_index s)]).
Proof.
  intros H. rewrite fetch_loop_cons, fetch_page_unfold.
  unfold page_try, session_get. run.
  destruct H as [H|(r & H & Hp)]; rewrite H; cbn.
  - rewrite lookup_empty. cbn. unfold add_events. cbn.
    by rewrite <- app_assoc.
  - rewrite Hp. cbn. unfold add_events. cbn. by rewrite <- app_assoc.
Qed.

(** A body that decodes to something else than an object, or whose
    response value is not an object, makes the [try] block raise
    AttributeError after the request has been made and the body kept in
    [all_responses]: the turn prints the error, sleeps 5 seconds and ends
    with the offset and the accumulator unchanged, and the loop goes on,
    asking for the same offset again. *)
Theorem malformed_body_is_retried (data : pyval) (rest : list http_outcome)
    (s : state) :
  ((∀ dd, data ≠ PDict dd)
   ∨ ∃ dd v, data = PDict dd ∧ dd !! "response" = Some v
             ∧ ∀ r, v ≠ PDict r) →
  let failed :=
    {| start_index := start_index s;
       all_products := all_products s;
       all_responses := (all_responses s ++ [data])%list;
       trace :=
         (trace s ++ [Request (start_index s);
                      PrintError (start_index s) AttributeError;
                      Sleep 5])%list;
       clock_reads := clock_reads s;
       connection_pool := connection_pool s;
       transaction := transaction s;
       table := table s |} in
  page_try (GetResponse 200 (Ok data)) s
  = (Raise AttributeError, answered s data)
  ∧ fetch_page (GetResponse 200 (Ok data)) s = (Ok Continue, failed)
  ∧ fetch_loop (GetResponse 200 (Ok data) :: rest) s
    = fetch_loop rest failed.
Proof.
  intros H failed.
  assert (E0 : page_try (GetResponse 200 (Ok data)) s
               = (Raise AttributeError, answered s data)).
  { unfold page_try, session_get. run.
    destruct H as [H|(dd & v & -> & Hv & Hr)].
    - destruct data; try done. by destruct (H d).
    - cbn. rewrite Hv. cbn. destruct v; try done. by destruct (Hr d). }
  assert (E : fetch_page (GetResponse 200 (Ok data)) s
              = (Ok Continue, failed)).
  { rewrite fetch_page_unfold, E0.
    unfold failed, add_events, answered. cbn. by rewrite <- !app_assoc. }
  split_and!; [exact E0|exact E|]. by rewrite fetch_loop_cons, E.
Qed.

Lemma chars_nonempty (t : string) :
  String.eqb t "" = false → ∃ c l, chars t = PStr c :: l.
Proof. destruct t; [done|]. cbn. eauto. Qed.

(** A products value that is true but not a list makes the [try] block
    raise before any record is appended: TypeError for a number or True,
    which cannot be iterated, and AttributeError for a non-empty string or
    object, on whose first element the extraction is called (the clock is
    then read once).  The turn prints the error, sleeps 5 seconds and ends
    with the offset and the accumulator unchanged, and the loop goes on,
    asking for the same offset again. *)
Theorem products_not_a_list_is_retried (data response products : pyval)
    (rest : list http_outcome) (s : state) :
  py_get data "response" (PDict ∅) = Ok response →
  py_get response "products" (PList []) = Ok products →
  truthy products = true →
  (∀ l, products ≠ PList l) →
  let iterated :=
    match products with
    | PStr _ | PDict _ => true
    | _ => false
    end in
  let e := if iterated then AttributeError else TypeError in
  let failed :=
    {| start_index := start_index s;
       all_products := all_products s;
       all_responses := (all_responses s ++ [data])%list;
       trace :=
         (trace s ++ [Request (start_index s);
                      PrintError (start_index s) e; Sleep 5])%list;
       clock_reads :=
         if iterated then S (clock_reads s) else clock_reads s;
       connection_pool := connection_pool s;
       transaction := transaction s;
       table := table s |} in
  fetch_page (GetResponse 200 (Ok data)) s = (Ok Continue, failed)
  ∧ fetch_loop (GetResponse 200 (Ok data) :: rest) s
    = fetch_loop rest failed.
Proof.
  intros H1 H2 Ht Hl iterated e failed.
  assert (E : fetch_page (GetResponse 200 (Ok data)) s
              = (Ok Continue, failed)).
  { rewrite fetch_page_unfold.
    unfold page_try, session_get. run.
    rewrite H1. cbn. rewrite H2. cbn.
    destruct response; try discriminate H2. cbn. rewrite Ht. cbn.
    unfold failed, e, iterated, add_events.
    destruct products as [|b|z|f|t|l|pd]; cbn;
      try (by rewrite <- !app_assoc).
    - cbn in Ht. apply negb_true_iff in Ht.
      destruct (chars_nonempty t Ht) as (c & l & ->). cbn.
      unfold extract_product_data, utcnow. run. by rewrite <- !app_assoc.
    - by destruct (Hl l).
    - cbn in Ht. apply negb_true_iff, Nat.eqb_neq in Ht.
      destruct (map_to_list pd) as [|[k v] l] eqn:E.
      + apply map_to_list_empty_iff in E. subst pd.
        by rewrite map_size_empty in Ht.
      + cbn. unfold extract_product_data, utcnow. run.
        by rewrite <- !app_assoc. }
  split; [exact E|]. by rewrite fetch_loop_cons, E.
Qed.

(** ** Persistence: what a call writes *)

(** What the table and the accumulator are after a call, whatever the
    database does: the accumulator is untouched, and the table is either
    untouched or, when no call up to the commit has raised, extended by
    every row of the batch. *)
Lemma save_to_postgresql_table (db : db_behaviour)
    (products : list normalized_record) (s : state) :
  let s' := (save_to_postgresql db products s).2 in
  all_products s' = all_products s
  ∧ (table s' = table s
     ∨ (db Getconn = None ∧ db Cursor = None ∧ db ExecuteBatch = None
        ∧ db Commit = None
        ∧ table s'
          = (table s ++ (transaction s ++ (row_of <$> products)))%list)).
Proof.
  destruct s as [i aps ars t n cp tr tb].
  unfold save_to_postgresql, try_except, getconn, cursor, execute_batch,
    commit, putconn, db_do, set_connection_pool, set_transaction, set_table.
  unfold mbind, M_bind, bind, mret, M_ret, ret, lift, get, raise, print, emit.
  destruct cp as [[[|m] u]|], (db Getconn), (db Cursor), (db ExecuteBatch),
    (db Commit), (db Putconn); cbn; auto;
    destruct (u <=? m)%nat; cbn; auto 10.
Qed.

(** A batch is written whole or not at all: after a call the table is as it
    was, or it holds every row of the batch (one per record, in the order
    of the records) after the rows it had; the second case needs getconn,
    cursor, execute_batch and commit to have gone through. *)
Theorem save_to_postgresql_all_or_nothing (db : db_behaviour)
    (products : list normalized_record) (s : state) :
  table (save_to_postgresql db products s).2 = table s
  ∨ (db Getconn = None ∧ db Cursor = None ∧ db ExecuteBatch = None
     ∧ db Commit = None
     ∧ table (save_to_postgresql db products s).2
       = (table s ++ (transaction s ++ (row_of <$> products)))%list).
Proof. apply save_to_postgresql_table. Qed.

(** With a pool that has a free connection and a database that answers
    every call, a batch of N records adds N rows to the table, in the order
    of the records, the connection goes back to the pool and the count is
    printed; an empty batch opens and commits a transaction all the
    same. *)
Theorem save_to_postgresql_writes_every_record
    (products : list normalized_record) (p : pool) (s : state) :
  connection_pool s = Some p →
  (used p < maxconn p)%nat →
  transaction s = [] →
  ∃ s',
    save_to_postgresql no_fault products s = (Ok tt, s')
    ∧ table s' = (table s ++ (row_of <$> products))%list
    ∧ length (table s') = (length (table s) + length products)%nat
    ∧ transaction s' = []
    ∧ connection_pool s' = Some p
    ∧ trace s' = (trace s ++ [PrintSaved (length products)])%list.
Proof.
  intros Hp Hlt Ht. eexists. split.
  - by apply save_to_postgresql_ok.
  - cbn. rewrite Ht. cbn.
    split_and!; try done. by rewrite length_app, length_fmap.
Qed.

(** With every connection of the pool handed out, getconn raises PoolError:
    the call prints the error and returns, and neither the pool nor the
    table has changed. *)
Theorem save_to_postgresql_pool_exhausted (db : db_behaviour)
    (products : list normalized_record) (p : pool) (s : state) :
  connection_pool s = Some p →
  (maxconn p ≤ used p)%nat →
  db Getconn = None →
  save_to_postgresql db products s
  = (Ok tt, add_events s [PrintSaveError PoolError]).
Proof.
  intros Hp Hle Hg. apply Nat.ltb_ge in Hle. unfold Nat.ltb in Hle.
  destruct s as [i aps ars t n cp tr tb]. cbn in Hp. subst cp.
  unfold save_to_postgresql, try_except, getconn, db_do.
  unfold mbind, M_bind, bind, mret, M_ret, ret, lift, get, raise, print, emit.
  rewrite Hg. destruct p as [[|m] u]; cbn in Hle |- *; [done|].
  by rewrite Hle.
Qed.

(** When putconn is the call that raises, the batch is already committed:
    the rows are in the table, yet the call prints the error instead of
    the count, and the connection stays handed out. *)
Theorem save_to_postgresql_putconn_failure (db : db_behaviour)
    (products : list normalized_record) (p : pool) (e : exn) (s : state) :
  connection_pool s = Some p →
  (used p < maxconn p)%nat →
  db Getconn = None →
  db Cursor = None →
  db ExecuteBatch = None →
  db Commit = None →
  db Putconn = Some e →
  ∃ s',
    save_to_postgresql db products s = (Ok tt, s')
    ∧ table s'
      = (table s ++ (transaction s ++ (row_of <$> products)))%list
    ∧ connection_pool s'
      = Some {| maxconn := maxconn p; used := S (used p) |}
    ∧ trace s' = (trace s ++ [PrintSaveError e])%list.
Proof.
  intros Hp Hlt Hg Hc He Hm Hu. apply Nat.ltb_lt in Hlt.
  unfold Nat.ltb in Hlt.
  destruct s as [i aps ars t n cp tr tb]. cbn in Hp. subst cp.
  destruct p as [[|m] u]; [discriminate|]. cbn in Hlt.
  unfold save_to_postgresql, try_except, getconn, cursor, execute_batch,
    commit, putconn, db_do, set_connection_pool, set_transaction, set_table.
  unfold mbind, M_bind, bind, mret, M_ret, ret, lift, get, raise, print, emit.
  rewrite Hg, Hc, He, Hm, Hu. cbn. rewrite Hlt. cbn. eauto 10.
Qed.

(** ** The whole run, again *)

(** No exception leaves [fetch_products], whatever the network and the
    database do; the script raises in one case only, when the creation of
    the pool raises something else than OperationalError, and then no page
    is asked for. *)
Theorem script_raises_only_at_pool_creation (c : connect_outcome)
    (network : list http_outcome) (db : db_behaviour) (s : state) :
  (∃ p, (fetch_products network db s).1 = Ok p)
  ∧ (∀ e, c = ConnectFails e → e ≠ OperationalError →
          script c network db s = (Raise e, with_pool None s))
  ∧ (c = Connected ∨ c = ConnectFails OperationalError →
     ∃ p, (script c network db s).1 = Ok p).
Proof.
  assert (H : ∀ s0, ∃ p, (fetch_products network db s0).1 = Ok p).
  { intros s0. rewrite fetch_products_unfold.
    destruct (fetch_loop_never_raises network (fresh_locals s0)) as [l Hl].
    destruct (fetch_loop network (fresh_locals s0)) as [r s1].
    cbn in Hl. subst r.
    destruct l; [destruct (connection_pool s1)|]; by eexists. }
  split_and!.
  - apply H.
  - intros e -> He. by destruct e.
  - intros [->| ->]; rewrite script_unfold.
    + rewrite create_pool_connected. apply H.
    + rewrite create_pool_operational_error. apply H.
Qed.

(** A run with a database that answers every call, once its loop has
    stopped, has written one row for each accumulated record, in order, to
    an empty table, has printed the count last and has given the connection
    back. *)
Theorem script_saves_accumulated_records (network rest : list http_outcome)
    (s1 : state) :
  fetch_loop network
    (fresh_locals
       (add_events
          (with_pool (Some {| maxconn := 100; used := 0 |}) initial_state)
          [PrintConnected]))
  = (Ok (Some rest), s1) →
  ∃ s',
    script Connected network no_fault initial_state = (Ok Returned, s')
    ∧ all_products s' = all_products s1
    ∧ table s' = row_of <$> all_products s1
    ∧ connection_pool s' = Some {| maxconn := 100; used := 0 |}
    ∧ trace s'
      = (trace s1 ++ [PrintSaved (length (all_products s1))])%list.
Proof.
  intros E.
  pose proof (fetch_loop_db_fields network
                (fresh_locals
                   (add_events
                      (with_pool (Some {| maxconn := 100; used := 0 |})
                         initial_state)
                      [PrintConnected]))
              : db_fields _ = db_fields _) as Hdb.
  rewrite E in Hdb. cbn in Hdb. injection Hdb as Hp Ht Hb.
  eexists. split.
  - rewrite script_unfold, create_pool_connected, fetch_products_unfold, E.
    rewrite Hp.
    erewrite save_to_postgresql_ok; [reflexivity|exact Hp|cbn; lia].
  - cbn. rewrite Ht, Hb. by split_and!.
Qed.

(** Whatever the network and the database do, [fetch_products] leaves the
    table as it was or extended by one row for each record it has
    accumulated, never by a part of them. *)
Theorem fetch_products_writes_all_or_nothing (network : list http_outcome)
    (db : db_behaviour) (s : state) :
  let s' := (fetch_products network db s).2 in
  table s' = table s
  ∨ table s'
    = (table s ++ (transaction s ++ (row_of <$> all_products s')))%list.
Proof.
  cbv zeta. rewrite fetch_products_unfold.
  pose proof (fetch_loop_db_fields network (fresh_locals s)
              : db_fields _ = db_fields _) as Hdb.
  destruct (fetch_loop network (fresh_locals s)) as [[[l|]|e] s1];
    cbn in Hdb; injection Hdb as Hp Ht Hb; cbn; [|by left..].
  destruct (connection_pool s1); cbn; [|by left].
  destruct (save_to_postgresql_table db (all_products s1) s1)
    as [Ha [Hs|(_ & _ & _ & _ & Hs)]]; cbv zeta in *.
  - left. by rewrite Hs.
  - right. by rewrite Hs, Ha, Ht, Hb.
Qed.

(** ** Why the loop stops, and what it accumulates *)

Lemma last_snoc_event (t : list event) (e : event) : last (t ++ [e]) = Some e.
Proof. apply last_snoc. Qed.

Lemma page_try_break (o : http_outcome) (s s' : state) :
  page_try o s = (Ok Break, s') →
  ∃ e, last (trace s') = Some e ∧ stop_event e = true.
Proof.
  unfold page_try, session_get. run.
  destruct o as [e|status json]; cbn; [done|].
  destruct (status =? 200); cbn;
    [|intros [= <-]; cbn; rewrite last_snoc_event; by eexists].
  destruct json as [data|e]; cbn; [|done].
  destruct (py_get data _ _) as [response|e]; cbn; [|done].
  destruct (py_get response "products" _) as [products|e]; cbn; [|done].
  destruct (py_get response "numberOfProducts" _) as [total|e]; cbn; [|done].
  destruct (truthy products); cbn;
    [|intros [= <-]; cbn; rewrite last_snoc_event; by eexists].
  destruct (py_iter products) as [items|e]; cbn; [|done].
  match goal with |- context [for_each ?b items ?s0] =>
    destruct (for_each b items s0) as [[[]|e] s1] end; cbn; [|done].
  destruct (py_int_ge _ total) as [[]|e]; cbn; [|done|done].
  intros [= <-]. cbn. rewrite last_snoc_event. by eexists.
Qed.

(** The loop is left in three ways only: on a status other than 200, on an
    empty product list, or when the count reaches the total; the last line
    printed tells which.  An exception never ends it. *)
Theorem fetch_loop_stops_for_a_reason (network rest : list http_outcome)
    (s s' : state) :
  fetch_loop network s = (Ok (Some rest), s') →
  ∃ e, last (trace s') = Some e ∧ stop_event e = true.
Proof.
  revert s. induction network as [|o net IH]; intros s; [done|].
  rewrite fetch_loop_cons, fetch_page_unfold.
  destruct (page_try o s) as [[[]|e] s1] eqn:E.
  - intros [= _ <-]. by eapply page_try_break.
  - apply IH.
  - apply IH.
Qed.

Lemma split_comma_head_no_comma (t : string) :
  ","%char ∉ list_ascii_of_string (split_comma t).1.
Proof.
  induction t as [|c t IH]; [apply not_elem_of_nil|].
  rewrite split_comma_cons.
  destruct (Ascii.eqb_spec c ",") as [->|Hc]; cbn.
  - apply not_elem_of_nil.
  - apply not_elem_of_cons. split; [congruence|done].
Qed.

Lemma extract_product_data_normalized (v : pyval) (s s' : state)
    (r : normalized_record) :
  extract_product_data v s = (Ok r, s') → normalized r.
Proof.
  unfold extract_product_data, utcnow. run.
  destruct v as [| | | | | |d]; cbn; try done.
  destruct (default _ (d !! "nameEn")) as [| | | |t| |]; cbn;
    try discriminate.
  destruct (py_first _) as [[| | | |b| |]|e]; cbn; try discriminate.
  intros [= <- _]. unfold normalized. cbn.
  split_and!; [done|done|apply split_comma_head_no_comma|
               apply format_brand_idempotent].
Qed.

Lemma appends_bind {A B} (m : M A) (k : A → M B) :
  appends_normalized m → (∀ a, appends_normalized (k a)) →
  appends_normalized (m ≫= k).
Proof.
  intros Hm Hk s. unfold mbind, M_bind, bind.
  destruct (Hm s) as (l & Hl & Hn). destruct (m s) as [[a|e] s1]; cbn in *.
  - destruct (Hk a s1) as (l' & Hl' & Hn').
    exists (l ++ l')%list. rewrite Hl', Hl, <- app_assoc.
    split; [done|by apply Forall_app].
  - by exists l.
Qed.

Lemma appends_try_except {A} (m : M A) (h : exn → M A) :
  appends_normalized m → (∀ e, appends_normalized (h e)) →
  appends_normalized (try_except m h).
Proof.
  intros Hm Hh s. unfold try_except.
  destruct (Hm s) as (l & Hl & Hn). destruct (m s) as [[a|e] s1]; cbn in *.
  - by exists l.
  - destruct (Hh e s1) as (l' & Hl' & Hn').
    exists (l ++ l')%list. rewrite Hl', Hl, <- app_assoc.
    split; [done|by apply Forall_app].
Qed.

Lemma appends_for_each {A} (body : A → M unit) (l : list A) :
  (∀ a, appends_normalized (body a)) → appends_normalized (for_each body l).
Proof.
  intros Hb. induction l as [|a l IH].
  - intros s. exists []. by rewrite app_nil_r.
  - cbn. by apply appends_bind.
Qed.

Lemma appends_nothing {A} (m : M A) :
  preserves all_products m → appends_normalized m.
Proof. intros H s. exists []. by rewrite H, app_nil_r. Qed.

Lemma appends_extract (v : pyval) :
  appends_normalized (r ← extract_product_data v; append_product r).
Proof.
  intros s. unfold mbind, M_bind, bind.
  pose proof (preserves_extract all_products v
                (λ _ _, eq_refl) (λ _, eq_refl) s) as Hp.
  destruct (extract_product_data v s) as [[r|e] s1] eqn:E; cbn in *.
  - exists [r]. rewrite Hp. split; [done|].
    constructor; [by eapply extract_product_data_normalized|constructor].
  - exists []. by rewrite Hp, app_nil_r.
Qed.

Ltac appends_step :=
  first
    [ apply appends_extract
    | apply appends_bind; [|intros ?]
    | apply appends_try_except; [|intros ?]
    | apply appends_for_each; intros ?
    | (apply appends_nothing; by intros ?)
    | match goal with
      | |- appends_normalized (match ?x with _ => _ end) => destruct x
      end ].

Lemma appends_fetch_page (o : http_outcome) :
  appends_normalized (fetch_page o).
Proof.
  unfold fetch_page, page_try, page_except, session_get, print, sleep.
  repeat appends_step.
Qed.

(** The loop only adds to the accumulator (a failed turn or a retry removes
    nothing), and every record it adds is normalized: its category is
    "tablets" and its store "extra", its name holds no comma, and its brand
    is one the correction leaves unchanged.  This holds for whatever the
    network answers, items of any shape included. *)
Theorem fetch_loop_appends_normalized_records (network : list http_outcome)
    (s : state) :
  ∃ l,
    all_products (fetch_loop network s).2 = (all_products s ++ l)%list
    ∧ Forall normalized l.
Proof.
  revert s. induction network as [|o rest IH]; intros s.
  - exists []. cbn. by rewrite app_nil_r.
  - rewrite fetch_loop_cons.
    destruct (appends_fetch_page o s) as (l & Hl & Hn).
    destruct (fetch_page o s) as [[[]|e] s1]; cbn in *; [by exists l| |by exists l].
    destruct (IH s1) as (l' & Hl' & Hn').
    exists (l ++ l')%list. rewrite Hl', Hl, <- app_assoc.
    split; [done|by apply Forall_app].
Qed.

End Script.

(** * Sample runs *)

(** ** The timestamp and the split, on sample values *)

Example current_time_str_sample :
  current_time_str 1700000000 = "2023-11-15 01:00:00".
Proof. by vm_compute. Qed.

Example current_time_str_leap_day :
  current_time_str 1709247599 = "2024-03-01 01:00:00".
Proof. by vm_compute. Qed.

Example split_comma_sample :
  split_comma "Tab X, 8GB RAM, Wi-Fi" = ("Tab X", Some " 8GB RAM, Wi-Fi").
Proof. by vm_compute. Qed.

(** ** Instances of the theorems *)

Lemma format_brand_case_insensitive_witness :
  upper "tecno" = upper "TECNO"
  ∧ is_Some (brand_mapping !! upper "tecno")
  ∧ format_brand "tecno" = format_brand "TECNO".
Proof.
  split; [reflexivity|]. split; [by eexists|].
  apply (proj1 (proj2 format_brand_case_insensitive_idempotent));
    [reflexivity|by eexists].
Defined.

Lemma extract_name_specs_split_witness :
  (is_Some (brand_of tab_x)
   ∧ ∃ r s',
       extract_product_data sample_str sample_clock (PDict tab_x)
         initial_state
       = (Ok r, s')
       ∧ name r = "Tab X" ∧ specs r = PStr " 8GB RAM, Octa-core")
  ∧ (is_Some (brand_of tab_a)
     ∧ ∃ r s',
         extract_product_data sample_str sample_clock (PDict tab_a)
           initial_state
         = (Ok r, s')
         ∧ name r = "Tab A"
         ∧ specs r = PStr "No Processor Info Available").
Proof.
  split.
  - split; [by eexists|].
    apply (proj1 (extract_name_specs_split sample_str sample_clock tab_x
                    initial_state ltac:(by eexists)));
      reflexivity.
  - split; [by eexists|].
    apply (proj2 (extract_name_specs_split sample_str sample_clock tab_a
                    initial_state ltac:(by eexists)) "Tab A");
      [reflexivity|compute_done].
Defined.

Lemma extract_product_data_defaults_witness :
  ∃ r s',
    extract_product_data sample_str sample_clock (PDict ∅) initial_state
    = (Ok r, s')
    ∧ name r = "No Name Available"
    ∧ specs r = PStr "No Processor Info Available"
    ∧ new_price r = PNone
    ∧ old_price r = PNone
    ∧ brand r = "No Brand Available"
    ∧ link r = PStr "No URL Available"
    ∧ stock r = PBool false.
Proof.
  destruct (extract_product_data_defaults sample_str sample_clock ∅
              initial_state)
    as (r & s' & E & Hn & Hs & Hp & Ho & Hb & Hl & Hk & _);
    [left; reflexivity|left; reflexivity|].
  exists r, s'. split; [exact E|].
  split; [apply Hn; reflexivity|].
  split; [apply Hs; reflexivity|].
  split; [apply Hp; reflexivity|].
  split; [rewrite Ho by reflexivity; apply Hp; reflexivity|].
  split; [apply Hb; reflexivity|].
  split; [apply Hl; reflexivity|apply Hk; reflexivity].
Defined.

Lemma failed_page_retries_same_offset_witness :
  page_try sample_str sample_clock (GetResponse 200 (Ok (PList [])))
    initial_state
  = (Raise AttributeError, answered initial_state (PList []))
  ∧ fetch_page sample_str sample_clock (GetResponse 200 (Ok (PList [])))
      initial_state
    = (Ok Continue,
       add_events (answered initial_state (PList []))
         [PrintError 0 AttributeError; Sleep 5])
  ∧ fetch_loop sample_str sample_clock
      [GetRaises RequestException; GetRaises RequestException;
       GetResponse 503 (Raise JSONDecodeError); GetRaises RequestException]
      initial_state
    = (Ok (Some [GetRaises RequestException]),
       add_events initial_state
         [Request 0; PrintError 0 RequestException; Sleep 5;
          Request 0; PrintError 0 RequestException; Sleep 5;
          Request 0; PrintFailedStatus 0 503]).
Proof.
  split; [reflexivity|]. split.
  - apply (proj1 (proj2 (proj2 (failed_page_retries_same_offset sample_str
                                  sample_clock)))
             (GetResponse 200 (Ok (PList []))) AttributeError initial_state
             (answered initial_state (PList []))).
    reflexivity.
  - apply (proj1 (proj2 (proj2 (proj2 (proj2
             (failed_page_retries_same_offset sample_str sample_clock)))))
             [RequestException; RequestException] 503
             (Raise JSONDecodeError) [GetRaises RequestException]
             initial_state).
    lia.
Defined.

Lemma non_200_status_is_terminal_witness :
  fetch_loop sample_str sample_clock
    [GetResponse 503 (Raise JSONDecodeError); GetRaises RequestException]
    initial_state
  = (Ok (Some [GetRaises RequestException]),
     add_events initial_state [Request 0; PrintFailedStatus 0 503])
  ∧ fetch_products sample_str sample_clock
      [GetResponse 503 (Raise JSONDecodeError); GetRaises RequestException]
      no_fault
      (with_pool (Some {| maxconn := 100; used := 0 |}) initial_state)
    = (Ok Returned,
       add_events
         (with_pool (Some {| maxconn := 100; used := 0 |}) initial_state)
         [Request 0; PrintFailedStatus 0 503; PrintSaved 0]).
Proof.
  split.
  - apply (proj1 (non_200_status_is_terminal sample_str sample_clock 503
                    (Raise JSONDecodeError) [GetRaises RequestException]
                    ltac:(lia))).
  - exact (proj2 (non_200_status_is_terminal sample_str sample_clock 503
                    (Raise JSONDecodeError) [GetRaises RequestException]
                    ltac:(lia))
             [] no_fault
             (with_pool (Some {| maxconn := 100; used := 0 |}) initial_state)
             (with_pool (Some {| maxconn := 100; used := 0 |}) initial_state)
             eq_refl).
Defined.

Lemma empty_page_stops_pagination_witness :
  fetch_loop sample_str sample_clock
    [page [] 200; GetRaises RequestException] initial_state
  = (Ok (Some [GetRaises RequestException]),
     add_events (answered initial_state (body [] 200)) [PrintNoMore 0]).
Proof.
  apply (proj1 (empty_page_stops_pagination sample_str sample_clock)
           (body [] 200) (response_object [] 200) (PList []));
    reflexivity.
Defined.

Lemma count_match_stops_in_same_turn_witness :
  fetch_loop sample_str sample_clock
    [page [PDict tab_a; PDict tab_b] 2; GetRaises RequestException]
    initial_state
  = (Ok (Some [GetRaises RequestException]),
     add_events
       (after_items sample_str sample_clock
          (answered initial_state (body [PDict tab_a; PDict tab_b] 2))
          [tab_a; tab_b])
       [PrintFetchedAll (PInt 2)]).
Proof.
  apply (proj1 (count_match_stops_in_same_turn sample_str sample_clock)
           (body [PDict tab_a; PDict tab_b] 2)
           (response_object [PDict tab_a; PDict tab_b] 2)
           [tab_a; tab_b] 2);
    [reflexivity|reflexivity|reflexivity|discriminate| |simpl; lia].
  repeat constructor.
Defined.

Lemma partial_page_is_kept_and_refetched_witness :
  ∃ s1,
    fetch_loop sample_str sample_clock
      [page [PDict tab_a; PDict tab_b_no_brand] 2] initial_state
    = fetch_loop sample_str sample_clock []
        (add_events s1 [PrintError 0 IndexError; Sleep 5])
    ∧ all_products s1 = [record_of sample_str (sample_clock 0) tab_a]
    ∧ start_index s1 = 0.
Proof.
  apply (proj1 (partial_page_is_kept_and_refetched sample_str sample_clock)
           (body [PDict tab_a; PDict tab_b_no_brand] 2)
           (response_object [PDict tab_a; PDict tab_b_no_brand] 2)
           [tab_a] (PDict tab_b_no_brand) [] IndexError [] initial_state);
    [reflexivity|reflexivity|repeat constructor|intros s0; reflexivity].
Defined.

(** ** Where the code departs from the stated behaviour *)

(** C3 as stated fails on the sample item: the specs keep the space that
    follows the comma of the title. *)
Lemma extract_tab_x_specs_keep_leading_space :
  ¬ ∃ r s',
      extract_product_data sample_str sample_clock (PDict tab_x) initial_state
      = (Ok r, s')
      ∧ name r = "Tab X" ∧ specs r = PStr "8GB RAM, Octa-core".
Proof.
  intros (r & s' & E & _ & Hs).
  assert (H : (extract_product_data sample_str sample_clock (PDict tab_x)
                 initial_state).1
              = Ok (record_of sample_str (sample_clock 0) tab_x))
    by (by vm_compute).
  rewrite E in H. cbn in H. injection H as ->.
  vm_compute in Hs. discriminate Hs.
Qed.

(** C2 as stated fails on total=96 with a first page of 96 items: the loop
    leaves in its first turn, not in its second; the second answer is never
    asked for. *)
Lemma count_match_not_in_second_turn :
  ¬ ∃ rest s',
      fetch_loop sample_str sample_clock
        [page (replicate 96 (PDict tab_a)) 96; page [] 96]
        (fresh_locals initial_state)
      = (Ok (Some rest), s')
      ∧ turns [page (replicate 96 (PDict tab_a)) 96; page [] 96] rest
        = 2%nat.
Proof.
  intros (rest & s' & E & Ht).
  assert (H : (fetch_loop sample_str sample_clock
                 [page (replicate 96 (PDict tab_a)) 96; page [] 96]
                 (fresh_locals initial_state)).1
              = Ok (Some [page [] 96]))
    by (by vm_compute).
  rewrite E in H. cbn in H. injection H as ->.
  vm_compute in Ht. discriminate Ht.
Qed.

(** ** Instances of the further properties *)

Lemma extract_product_data_returns_iff_witness :
  ∃ r s',
    extract_product_data sample_str sample_clock (PDict tab_a) initial_state
    = (Ok r, s').
Proof.
  apply (proj1 (extract_product_data_returns_iff sample_str sample_clock
                  tab_a initial_state)).
  split; by eexists.
Defined.

Lemma extract_product_data_copies_present_fields_witness :
  ∃ r s',
    extract_product_data sample_str sample_clock
      (PDict (<["wasPrice" := PNone]> tab_a)) initial_state
    = (Ok r, s')
    ∧ new_price r = PInt 499 ∧ old_price r = PNone.
Proof.
  destruct (extract_product_data_copies_present_fields sample_str sample_clock
              (<["wasPrice" := PNone]> tab_a) initial_state)
    as (r & s' & E & Hn & _ & Ho & _); [by eexists|by eexists|].
  exists r, s'. split; [exact E|].
  split; [apply Hn; reflexivity|apply Ho; reflexivity].
Defined.

Lemma extract_name_specs_by_title_witness :
  ∃ r s',
    extract_product_data sample_str sample_clock
      (PDict (<["nameEn" := PStr "Tab X,"]> tab_x)) initial_state
    = (Ok r, s')
    ∧ name r = "Tab X" ∧ specs r = PStr "Octa-core".
Proof.
  exact (extract_name_specs_by_title sample_str sample_clock
           (<["nameEn" := PStr "Tab X,"]> tab_x) initial_state "Tab X" ""
           ltac:(by eexists) ltac:(reflexivity) ltac:(compute_done)).
Defined.

Lemma format_brand_changes_case_only_witness :
  upper (format_brand "hUaWei") = upper "hUaWei"
  ∧ format_brand "samsng" = "Samsung".
Proof.
  split.
  - apply (proj1 (format_brand_changes_case_only "hUaWei")). by vm_compute.
  - apply (proj2 (format_brand_changes_case_only "samsng")). reflexivity.
Defined.

Lemma current_time_str_same_hour_witness :
  current_time_str 1700000000 = current_time_str 1700001999.
Proof.
  apply (proj1 (current_time_str_same_hour 1700000000 1700001999
                  ltac:(reflexivity))).
Defined.

Lemma page_short_of_total_advances_by_96_witness :
  fetch_page sample_str sample_clock (page [PDict tab_a; PDict tab_b] 200)
    initial_state
  = (Ok Continue,
     {| start_index := 96;
        all_products :=
          [record_of sample_str (sample_clock 0) tab_a;
           record_of sample_str (sample_clock 1) tab_b];
        all_responses := [body [PDict tab_a; PDict tab_b] 200];
        trace := [Request 0; product_line tab_a; product_line tab_b];
        clock_reads := 2;
        connection_pool := None; transaction := []; table := [] |}).
Proof.
  refine (proj1 (page_short_of_total_advances_by_96 sample_str sample_clock
                   (body [PDict tab_a; PDict tab_b] 200)
                   (response_object [PDict tab_a; PDict tab_b] 200)
                   [tab_a; tab_b] 200 [] initial_state _ _ _ _ _ _));
    [reflexivity|reflexivity|reflexivity|discriminate| |simpl; lia].
  repeat constructor.
Defined.

Lemma non_numeric_total_fails_after_appending_witness :
  fetch_page sample_str sample_clock
    (GetResponse 200
       (Ok (PDict {[ "response" :=
                       PDict (list_to_map
                                [ ("products", PList [PDict tab_a]);
                                  ("numberOfProducts", PStr "1") ]) ]})))
    initial_state
  = (Ok Continue,
     {| start_index := 0;
        all_products := [record_of sample_str (sample_clock 0) tab_a];
        all_responses :=
          [PDict {[ "response" :=
                      PDict (list_to_map
                               [ ("products", PList [PDict tab_a]);
                                 ("numberOfProducts", PStr "1") ]) ]}];
        trace := [Request 0; product_line tab_a;
                  PrintError 0 TypeError; Sleep 5];
        clock_reads := 1;
        connection_pool := None; transaction := []; table := [] |}).
Proof.
  refine (proj1 (proj2 (non_numeric_total_fails_after_appending sample_str
                  sample_clock
                  (PDict {[ "response" :=
                              PDict (list_to_map
                                       [ ("products", PList [PDict tab_a]);
                                         ("numberOfProducts", PStr "1") ]) ]})
                  (PDict (list_to_map [ ("products", PList [PDict tab_a]);
                                        ("numberOfProducts", PStr "1") ]))
                  (PStr "1") [tab_a] [] initial_state _ _ _ _ _ _)));
    [reflexivity|reflexivity|reflexivity|discriminate| |exact I].
  repeat constructor.
Defined.

Lemma missing_total_stops_after_first_page_witness :
  fetch_loop sample_str sample_clock
    [GetResponse 200
       (Ok (PDict {[ "response" :=
                       PDict {[ "products" := PList [PDict tab_a] ]} ]}));
     GetRaises RequestException]
    initial_state
  = (Ok (Some [GetRaises RequestException]),
     add_events
       (after_items sample_str sample_clock
          (answered initial_state
             (PDict {[ "response" :=
                         PDict {[ "products" := PList [PDict tab_a] ]} ]}))
          [tab_a])
       [PrintFetchedAll (PInt 0)]).
Proof.
  apply (missing_total_stops_after_first_page sample_str sample_clock
           {[ "response" := PDict {[ "products" := PList [PDict tab_a] ]} ]}
           {[ "products" := PList [PDict tab_a] ]} [tab_a]);
    [reflexivity|reflexivity|reflexivity|discriminate|].
  repeat constructor.
Defined.

Lemma missing_keys_stop_pagination_witness :
  fetch_loop sample_str sample_clock
    [GetResponse 200 (Ok (PDict ∅)); GetRaises RequestException]
    initial_state
  = (Ok (Some [GetRaises RequestException]),
     add_events (answered initial_state (PDict ∅)) [PrintNoMore 0]).
Proof.
  apply (missing_keys_stop_pagination sample_str sample_clock ∅).
  left. reflexivity.
Defined.

Lemma malformed_body_is_retried_witness :
  fetch_page sample_str sample_clock (GetResponse 200 (Ok (PList [])))
    initial_state
  = (Ok Continue,
     {| start_index := 0; all_products := [];
        all_responses := [PList []];
        trace := [Request 0; PrintError 0 AttributeError; Sleep 5];
        clock_reads := 0;
        connection_pool := None; transaction := []; table := [] |}).
Proof.
  refine (proj1 (proj2 (malformed_body_is_retried sample_str sample_clock
                          (PList []) [] initial_state _))).
  left. discriminate.
Defined.

Lemma products_not_a_list_is_retried_witness :
  fetch_page sample_str sample_clock
    (GetResponse 200
       (Ok (PDict {[ "response" := PDict {[ "products" := PStr "none" ]} ]})))
    initial_state
  = (Ok Continue,
     {| start_index := 0; all_products := [];
        all_responses :=
          [PDict {[ "response" := PDict {[ "products" := PStr "none" ]} ]}];
        trace := [Request 0; PrintError 0 AttributeError; Sleep 5];
        clock_reads := 1;
        connection_pool := None; transaction := []; table := [] |})
  ∧ fetch_page sample_str sample_clock
      (GetResponse 200
         (Ok (PDict {[ "response" := PDict {[ "products" := PInt 7 ]} ]})))
      initial_state
    = (Ok Continue,
       {| start_index := 0; all_products := [];
          all_responses :=
            [PDict {[ "response" := PDict {[ "products" := PInt 7 ]} ]}];
          trace := [Request 0; PrintError 0 TypeError; Sleep 5];
          clock_reads := 0;
          connection_pool := None; transaction := []; table := [] |}).
Proof.
  split.
  - refine (proj1 (products_not_a_list_is_retried sample_str sample_clock
                    (PDict {[ "response" :=
                                PDict {[ "products" := PStr "none" ]} ]})
                    (PDict {[ "products" := PStr "none" ]}) (PStr "none") []
                    initial_state _ _ _ _));
      [reflexivity|reflexivity|reflexivity|discriminate].
  - refine (proj1 (products_not_a_list_is_retried sample_str sample_clock
                    (PDict {[ "response" :=
                                PDict {[ "products" := PInt 7 ]} ]})
                    (PDict {[ "products" := PInt 7 ]}) (PInt 7) []
                    initial_state _ _ _ _));
      [reflexivity|reflexivity|reflexivity|discriminate].
Defined.

Lemma save_to_postgresql_writes_every_record_witness :
  ∃ s',
    save_to_postgresql no_fault
      [record_of sample_str 1700000000 tab_a;
       record_of sample_str 1700000000 tab_b]
      (with_pool (Some {| maxconn := 100; used := 3 |}) initial_state)
    = (Ok tt, s')
    ∧ table s'
      = [row_of (record_of sample_str 1700000000 tab_a);
         row_of (record_of sample_str 1700000000 tab_b)]
    ∧ length (table s') = 2%nat
    ∧ transaction s' = []
    ∧ connection_pool s' = Some {| maxconn := 100; used := 3 |}
    ∧ trace s' = [PrintSaved 2].
Proof.
  apply (save_to_postgresql_writes_every_record
           [record_of sample_str 1700000000 tab_a;
            record_of sample_str 1700000000 tab_b]
           {| maxconn := 100; used := 3 |}
           (with_pool (Some {| maxconn := 100; used := 3 |}) initial_state));
    [reflexivity|simpl; lia|reflexivity].
Defined.

Lemma save_to_postgresql_pool_exhausted_witness :
  save_to_postgresql no_fault []
    (with_pool (Some {| maxconn := 100; used := 100 |}) initial_state)
  = (Ok tt,
     add_events
       (with_pool (Some {| maxconn := 100; used := 100 |}) initial_state)
       [PrintSaveError PoolError]).
Proof.
  apply (save_to_postgresql_pool_exhausted no_fault []
           {| maxconn := 100; used := 100 |});
    [reflexivity|simpl; lia|reflexivity].
Defined.

Lemma save_to_postgresql_putconn_failure_witness :
  ∃ s',
    save_to_postgresql (fails_at Putconn PoolError)
      [record_of sample_str 1700000000 tab_a]
      (with_pool (Some {| maxconn := 100; used := 0 |}) initial_state)
    = (Ok tt, s')
    ∧ table s' = [row_of (record_of sample_str 1700000000 tab_a)]
    ∧ connection_pool s' = Some {| maxconn := 100; used := 1 |}
    ∧ trace s' = [PrintSaveError PoolError].
Proof.
  apply (save_to_postgresql_putconn_failure (fails_at Putconn PoolError)
           [record_of sample_str 1700000000 tab_a]
           {| maxconn := 100; used := 0 |} PoolError
           (with_pool (Some {| maxconn := 100; used := 0 |}) initial_state));
    [reflexivity|simpl; lia|reflexivity..].
Defined.

Lemma script_raises_only_at_pool_creation_witness :
  script sample_str sample_clock (ConnectFails KeyError)
    [page [PDict tab_a] 1] no_fault initial_state
  = (Raise KeyError, with_pool None initial_state).
Proof.
  apply (proj1 (proj2 (script_raises_only_at_pool_creation sample_str
                         sample_clock (ConnectFails KeyError)
                         [page [PDict tab_a] 1] no_fault initial_state))
           KeyError);
    [reflexivity|discriminate].
Defined.

Lemma script_saves_accumulated_records_witness :
  ∃ s',
    script sample_str sample_clock Connected
      [page [PDict tab_a; PDict tab_b] 2; GetRaises RequestException]
      no_fault initial_state
    = (Ok Returned, s')
    ∧ all_products s'
      = [record_of sample_str (sample_clock 0) tab_a;
         record_of sample_str (sample_clock 1) tab_b]
    ∧ table s'
      = [row_of (record_of sample_str (sample_clock 0) tab_a);
         row_of (record_of sample_str (sample_clock 1) tab_b)]
    ∧ connection_pool s' = Some {| maxconn := 100; used := 0 |}
    ∧ trace s'
      = [PrintConnected; Request 0; product_line tab_a; product_line tab_b;
         PrintFetchedAll (PInt 2); PrintSaved 2].
Proof.
  apply (script_saves_accumulated_records sample_str sample_clock
           [page [PDict tab_a; PDict tab_b] 2; GetRaises RequestException]
           [GetRaises RequestException]
           {| start_index := 0;
              all_products :=
                [record_of sample_str (sample_clock 0) tab_a;
                 record_of sample_str (sample_clock 1) tab_b];
              all_responses := [body [PDict tab_a; PDict tab_b] 2];
              trace := [PrintConnected; Request 0; product_line tab_a;
                        product_line tab_b; PrintFetchedAll (PInt 2)];
              clock_reads := 2;
              connection_pool := Some {| maxconn := 100; used := 0 |};
              transaction := []; table := [] |}).
  vm_compute. reflexivity.
Defined.
